(** * Shopery server: the authentication handlers

    A shallow embedding of [src/controllers/auth.controller.ts]: the five
    Express handlers [register], [login], [logout], [forgotPassword] and
    [changePassword], over an explicit model of the two Mongoose
    collections they touch (users and tokens).

    The handlers are written in a small state-and-early-exit monad: a
    handler threads the database through its calls and stops at the first
    [next(err)] or [res.status(..).json(..)].  Every call to a model or a
    service is appended to a trace, so that "the handler touched no
    store" is a statement about the trace.

    The services and models the controller imports ([AuthService],
    [userService], [tokenService], [emailService], [authMapper], the
    [User] and [Token] schemas) are not part of the sources.  Pure
    collaborators are section variables; the two collections are lists of
    documents that keep exactly the fields the controller writes.

    Beside the authentication handlers, the file embeds the four
    handlers of [src/controllers/address.controller.ts] over a list of
    address documents, the [toJSON] transform of the transaction schema
    over a map from keys to values, and the header middleware of the
    application over a map of response headers. *)

From stdpp Require Import base option list strings gmap.
From Stdlib Require Import ZArith Ascii Lia.

Local Open Scope Z_scope.

(** ** JavaScript values used by the controller *)

(** A request field or a document field of string type; [None] is an
    absent ([undefined]) field. *)
Definition JsString := option string.

(** [!x] on a string-or-undefined value is true for [undefined] and for
    the empty string. *)
Definition truthy (x : JsString) : bool :=
  match x with
  | None => false
  | Some s => negb (String.eqb s "")
  end.

Definition lowerAscii (c : ascii) : ascii :=
  let n := nat_of_ascii c in
  if ((65 <=? n)%nat && (n <=? 90)%nat)%bool then ascii_of_nat (n + 32) else c.

(** [String.prototype.toLowerCase] on the ASCII letters: [A] to [Z] are
    lower-cased and every other byte is left as it is.  JavaScript also
    lower-cases the letters outside ASCII; on strings of ASCII characters
    the two agree. *)
Fixpoint toLowerCase (s : string) : string :=
  match s with
  | EmptyString => EmptyString
  | String c r => String (lowerAscii c) (toLowerCase r)
  end.

Definition ObjectId := string.

(** Role names of [utils/enum.util]; the controller only uses [USER]. *)
Inductive UserType := USER | GUEST | SUPER | ADMIN | MERCHANT.

(** ** Documents *)

Module UserDoc.
(** A stored user: the fields [register] hands to [createUser], plus
    the [_id] the store assigns. *)
Record t := mk {
  _id : ObjectId;
  firstName : JsString;
  lastName : JsString;
  email : JsString;
  password : JsString;
  username : string;
  userType : UserType;
  role : UserType;
  isUser : bool;
  isGuest : bool;
  isSuper : bool;
  isAdmin : bool;
  isMerchant : bool
}.

(** [user.password = p] *)
Definition set_password (p : JsString) (u : t) : t :=
  mk (_id u) (firstName u) (lastName u) (email u) p (username u)
     (userType u) (role u) (isUser u) (isGuest u) (isSuper u)
     (isAdmin u) (isMerchant u).
End UserDoc.

Module TokenDoc.
(** A stored token.  The controller writes the owner under two keys:
    [login] creates the document with [user], [forgotPassword] creates
    it with [userId], and [login] looks it up by [userId].  A document
    keeps the keys it was created with. *)
Record t := mk {
  userId : option ObjectId;
  user : option ObjectId;
  token : JsString;
  expiresAt : option Z
}.

(** [authToken.token = v] *)
Definition set_token (v : JsString) (d : t) : t :=
  mk (userId d) (user d) v (expiresAt d).
End TokenDoc.

(** ** Requests and responses *)

Module RegisterDTO.
Record t := mk {
  email : JsString;
  password : JsString;
  firstName : JsString;
  lastName : JsString
}.

(** [req.body.email = v] *)
Definition set_email (v : JsString) (b : t) : t :=
  mk v (password b) (firstName b) (lastName b).
End RegisterDTO.

Module LoginBody.
Record t := mk { email : JsString; password : JsString }.

Definition set_email (v : JsString) (b : t) : t := mk v (password b).
End LoginBody.

Module ChangePasswordBody.
Record t := mk { oldPassword : JsString; newPassword : JsString }.
End ChangePasswordBody.

(** What a validator of [AuthService] returns: [{error, code, message, data}]. *)
Module Validation.
Record t (D : Type) := mk {
  error : bool;
  code : Z;
  message : string;
  data : D
}.
Arguments mk {D}.
Arguments error {D}.
Arguments code {D}.
Arguments message {D}.
Arguments data {D}.
End Validation.

(** [validate.data] of a login: the controller reads [id] and [token]. *)
Module LoginData.
Record t := mk { id : ObjectId; token : JsString }.
End LoginData.

(** What [emailService.sendPasswordForgotEmail] returns. *)
Module EmailResult.
Record t := mk { error : bool; code : Z; message : string }.
End EmailResult.

(** The payload signed by [tokenService.generateToken]. *)
Module TokenPayload.
Record t := mk { userId : ObjectId; type : string }.
End TokenPayload.

(** [new ErrorResponse(message, statusCode, errors)] *)
Record ErrorResponse := mkError {
  err_message : string;
  err_code : Z;
  err_errors : list string
}.

Section Responses.
(** The projection [authMapper.mapRegisteredUser] computes. *)
Variable Mapped : Type.

(** The [data] member of the envelope; [logout] sends none. *)
Inductive Data :=
  | NoData
  | EmptyData
  | MappedData (m : Mapped)
  | LoginMapped (m : Mapped) (authToken : JsString).

Record Envelope := mkEnvelope {
  env_error : bool;
  env_errors : list string;
  env_data : Data;
  env_message : string;
  env_status : Z
}.

(** How a handler ends: [res.status(s).json(e)] or [next(err)]. *)
Inductive Response :=
  | Json (s : Z) (e : Envelope)
  | Next (err : ErrorResponse).
End Responses.

Arguments NoData {Mapped}.
Arguments EmptyData {Mapped}.
Arguments MappedData {Mapped}.
Arguments LoginMapped {Mapped}.
Arguments mkEnvelope {Mapped}.
Arguments env_error {Mapped}.
Arguments env_errors {Mapped}.
Arguments env_data {Mapped}.
Arguments env_message {Mapped}.
Arguments env_status {Mapped}.
Arguments Json {Mapped}.
Arguments Next {Mapped}.

(** ** The database and the trace of calls *)

Inductive Op :=
| OpValidateRegister
| OpValidateLogin
| OpUserFindOneEmail (e : JsString)
| OpUserFindOneId (i : ObjectId)
| OpUserFindById (i : ObjectId)
| OpUserCreate
| OpUserSave (i : ObjectId)
| OpTokenFindOne (i : ObjectId)
| OpTokenSave
| OpTokenCreate
| OpSendEmail.

Record World := mkWorld {
  users : list UserDoc.t;
  tokens : list TokenDoc.t;
  trace : list Op
}.

Definition log (o : Op) (w : World) : World :=
  mkWorld (users w) (tokens w) (trace w ++ [o]).

Definition set_users (us : list UserDoc.t) (w : World) : World :=
  mkWorld us (tokens w) (trace w).

Definition set_tokens (ts : list TokenDoc.t) (w : World) : World :=
  mkWorld (users w) ts (trace w).

(** What one request sees of the outside: the clock [Date.now()], in
    milliseconds, the id the store gives to a document created by this
    request, and the randomness the request draws on. *)
Record Env := mkEnv {
  now : Z;
  freshId : ObjectId;
  entropy : string
}.

(** ** The handler monad *)

Section Handler.
Variable Mapped : Type.

Inductive Outcome (A : Type) :=
  | Sent (r : Response Mapped)
  | Pending (a : A).
Arguments Sent {A}.
Arguments Pending {A}.

Definition Handler (A : Type) : Type := World -> Outcome A * World.

Definition pure {A} (a : A) : Handler A := fun w => (Pending a, w).

Definition bind {A B} (m : Handler A) (k : A -> Handler B) : Handler B :=
  fun w =>
    match m w with
    | (Sent r, w') => (Sent r, w')
    | (Pending a, w') => k a w'
    end.

(** [return next(err)] *)
Definition next {A} (err : ErrorResponse) : Handler A :=
  fun w => (Sent (Next err), w).

(** [res.status(s).json(e)] as the last statement *)
Definition json {A} (s : Z) (e : Envelope Mapped) : Handler A :=
  fun w => (Sent (Json s e), w).

(** A call that reads the database and leaves its mark on the trace. *)
Definition query {A} (o : Op) (f : World -> A) : Handler A :=
  fun w => (Pending (f w), log o w).

(** A call that writes the database. *)
Definition update (o : Op) (f : World -> World) : Handler unit :=
  fun w => (Pending tt, log o (f w)).
End Handler.

Arguments Sent {Mapped A}.
Arguments Pending {Mapped A}.
Arguments pure {Mapped A}.
Arguments bind {Mapped A B}.
Arguments next {Mapped A}.
Arguments json {Mapped A}.
Arguments query {Mapped A}.
Arguments update {Mapped}.

Notation "'let!' x ':=' m 'in' k" := (bind m (fun x => k))
  (at level 10, x name, m at level 100, k at level 200).
Notation "m ';;!' k" := (bind m (fun _ => k))
  (at level 100, k at level 200, right associativity).

(** ** The controller *)

(** The body of [POST /auth/forgot-password]. *)
Module ForgotPasswordBody.
Record t := mk { email : JsString }.
End ForgotPasswordBody.

(** The object literal [register] passes to [userService.createUser]. *)
Module CreateUserDTO.
Record t := mk {
  firstName : JsString;
  lastName : JsString;
  email : JsString;
  password : JsString;
  username : string;
  userType : UserType;
  role : UserType;
  isUser : bool;
  isGuest : bool;
  isSuper : bool;
  isAdmin : bool;
  isMerchant : bool
}.
End CreateUserDTO.

(** A document read from a collection comes with its position there:
    [save()] writes the document back to the place it was read from. *)
Definition Found (D : Type) : Type := option (nat * D).

(** The first user whose [email] is [e]: the filter [{ email }]. *)
Definition userByEmail (e : JsString) (us : list UserDoc.t) : Found UserDoc.t :=
  list_find (fun u => UserDoc.email u = e) us.

(** The first user whose [_id] is [i]: the filter [{ _id }]. *)
Definition userById (i : ObjectId) (us : list UserDoc.t) : Found UserDoc.t :=
  list_find (fun u => UserDoc._id u = i) us.

(** The first token whose [userId] key holds [i]: the filter [{ userId }]. *)
Definition tokenByUserId (i : ObjectId) (ts : list TokenDoc.t)
  : Found TokenDoc.t :=
  list_find (fun d => TokenDoc.userId d = Some i) ts.

(** The HTTP status a response carries. *)
Definition statusOf {Mapped} (r : Response Mapped) : Z :=
  match r with
  | Json s _ => s
  | Next err => err_code err
  end.

(** A request that was answered with status 200. *)
Definition succeeded {Mapped A} (o : Outcome Mapped A) : bool :=
  match o with
  | Sent (Json s _) => s =? 200
  | _ => false
  end.

(** The token documents that refer to user [u], under either of the two
    keys the controller writes. *)
Definition tokensOf (u : ObjectId) (ts : list TokenDoc.t) : list TokenDoc.t :=
  filter (fun d => TokenDoc.user d = Some u \/ TokenDoc.userId d = Some u) ts.

(** Two emails are the same up to letter case. *)
Definition sameEmail (a b : JsString) : Prop :=
  toLowerCase <$> a = toLowerCase <$> b.

(** *** The password policy *)

Definition isUpper (c : ascii) : bool :=
  let n := nat_of_ascii c in ((65 <=? n)%nat && (n <=? 90)%nat)%bool.

Definition isLower (c : ascii) : bool :=
  let n := nat_of_ascii c in ((97 <=? n)%nat && (n <=? 122)%nat)%bool.

Definition isDigit (c : ascii) : bool :=
  let n := nat_of_ascii c in ((48 <=? n)%nat && (n <=? 57)%nat)%bool.

Definition isSpecial (c : ascii) : bool :=
  negb (isUpper c || isLower c || isDigit c).

(** Modelled from the spec: [userService.checkPassword] is not in the
    sources.  The spec's acceptance policy: the password must exceed 8
    characters and contain at least one uppercase letter, one digit and
    one special character. *)
Definition passwordPolicy (p : JsString) : bool :=
  match p with
  | None => false
  | Some s =>
      let cs := String.list_ascii_of_string s in
      ((8 <? String.length s)%nat
       && existsb isUpper cs && existsb isDigit cs && existsb isSpecial cs)%bool
  end.

(** *** Concrete collaborators and stores, to run the handlers *)

Module Sample.

Definition mapUser (x : UserDoc.t + LoginData.t) : ObjectId :=
  match x with
  | inl u => UserDoc._id u
  | inr d => LoginData.id d
  end.


Definition rejected : Validation.t LoginData.t :=
  Validation.mk true 400 "Invalid credentials" (LoginData.mk "" None).

(** Accepts the stored email with the stored password, and issues a
    token made from the request's entropy. *)
Definition checkCredentials (us : list UserDoc.t) (env : Env) (b : LoginBody.t)
  : Validation.t LoginData.t :=
  match userByEmail (LoginBody.email b) us with
  | Some (_, u) =>
      if bool_decide (UserDoc.password u = LoginBody.password b)
      then Validation.mk false 200 ""
             (LoginData.mk (UserDoc._id u) (Some ("token-" +:+ entropy env)))
      else rejected
  | None => rejected
  end.

(** A validator that still vouches for a user who is gone. *)
Definition staleCredentials (us : list UserDoc.t) (env : Env) (b : LoginBody.t)
  : Validation.t LoginData.t :=
  Validation.mk false 200 ""
    (LoginData.mk "u9" (Some ("token-" +:+ entropy env))).

Definition randomChars (e : string) (n : nat) : string := e.

Definition signToken (p : TokenPayload.t) (secret : string) (ttl : Z) : string :=
  TokenPayload.type p +:+ ":" +:+ TokenPayload.userId p.

Definition wellFormed (e : JsString) : bool := truthy e.

Definition mailerDown (to : JsString) (url : string) : EmailResult.t :=
  EmailResult.mk true 500 "Email could not be sent".

Definition samePassword (u : UserDoc.t) (p : JsString) : bool :=
  bool_decide (UserDoc.password u = p).

Definition alice : UserDoc.t :=
  UserDoc.mk "u1" (Some "Alice") (Some "Doe") (Some "a@b.com")
             (Some "Secret1!") "alice" USER USER true false false false false.

Definition store : World := mkWorld [alice] [] [].

Definition firstLogin : Env * LoginBody.t :=
  (mkEnv 1000 "t1" "one", LoginBody.mk (Some "A@b.com") (Some "Secret1!")).

Definition secondLogin : Env * LoginBody.t :=
  (mkEnv 2000 "t2" "two", LoginBody.mk (Some "a@b.com") (Some "Secret1!")).

Definition registerAgain : RegisterDTO.t :=
  RegisterDTO.mk (Some "A@B.com") (Some "Secret2!") (Some "Al") (Some "Doe").

End Sample.

(** ** The address controller *)

Module AddressDoc.
(** A stored address: the fields [createAddress] gives to [new Address],
    plus the [_id] of the new document. *)
Record t := mk {
  _id : ObjectId;
  user : ObjectId;
  street : JsString;
  city : JsString;
  state : JsString;
  postalCode : JsString;
  country : JsString
}.
End AddressDoc.

(** The body of [createAddress]. *)
Module AddressBody.
Record t := mk {
  street : JsString;
  city : JsString;
  state : JsString;
  postalCode : JsString;
  country : JsString
}.
End AddressBody.

(** The body of [updateAddress], handed to [findByIdAndUpdate] as it
    comes: the paths of the document it names are set, the others are
    left alone. *)
Module AddressUpdate.
Record t := mk {
  user : option ObjectId;
  street : JsString;
  city : JsString;
  state : JsString;
  postalCode : JsString;
  country : JsString
}.

Definition empty : t := mk None None None None None None.
End AddressUpdate.

(** The [data] of an address response. *)
Inductive AddressData :=
| OneAddress (a : AddressDoc.t)
| AddressList (l : list AddressDoc.t).

(** How an address handler ends: [res.status(s).json({error, message,
    data})], [next(err)], or a rejection of the handler's promise when
    the store refuses a document, which is the wrapper's to deal with. *)
Inductive AddressOutcome :=
| AddressJson (s : Z) (error : bool) (message : string) (data : AddressData)
| AddressNext (err : ErrorResponse)
| AddressRejected.

(** The first address whose [_id] is [i]. *)
Definition addressById (i : ObjectId) (store : list AddressDoc.t)
  : Found AddressDoc.t :=
  list_find (fun a => AddressDoc._id a = i) store.

(** A path of the update wins over the stored one when it is there. *)
Definition setPath {A} (new : option A) (old : option A) : option A :=
  match new with
  | Some v => Some v
  | None => old
  end.

(** The document after [$set]ting the paths of the update. *)
Definition applyUpdate (upd : AddressUpdate.t) (a : AddressDoc.t) : AddressDoc.t :=
  AddressDoc.mk (AddressDoc._id a)
    (default (AddressDoc.user a) (AddressUpdate.user upd))
    (setPath (AddressUpdate.street upd) (AddressDoc.street a))
    (setPath (AddressUpdate.city upd) (AddressDoc.city a))
    (setPath (AddressUpdate.state upd) (AddressDoc.state a))
    (setPath (AddressUpdate.postalCode upd) (AddressDoc.postalCode a))
    (setPath (AddressUpdate.country upd) (AddressDoc.country a)).

Section AddressController.

(** The validators of the address schema, which is not in the sources:
    what [save()] accepts, and what [runValidators] accepts of an
    update. *)
Variable schemaAccepts : AddressDoc.t -> bool.
Variable updateAccepts : AddressUpdate.t -> bool.

(** [createAddress]; [user] is [req.user.id]. *)
Definition createAddress (env : Env) (user : ObjectId) (body : AddressBody.t)
    (store : list AddressDoc.t) : AddressOutcome * list AddressDoc.t :=
  let address :=
    AddressDoc.mk (freshId env) user
      (AddressBody.street body) (AddressBody.city body)
      (AddressBody.state body) (AddressBody.postalCode body)
      (AddressBody.country body) in
  if schemaAccepts address then
    (AddressJson 201 false "Address created successfully" (OneAddress address),
     store ++ [address])
  else (AddressRejected, store).

(** [getUserAddresses]; [userId] is [req.params.userId]. *)
Definition getUserAddresses (userId : ObjectId) (store : list AddressDoc.t)
  : AddressOutcome * list AddressDoc.t :=
  let addresses := filter (fun a => AddressDoc.user a = userId) store in
  (AddressJson 200 false "Addresses fetched successfully"
               (AddressList addresses), store).

(** [updateAddress]: [findByIdAndUpdate(addressId, updateData,
    { new: true, runValidators: true })]. *)
Definition updateAddress (addressId : ObjectId) (updateData : AddressUpdate.t)
    (store : list AddressDoc.t) : AddressOutcome * list AddressDoc.t :=
  if negb (updateAccepts updateData) then (AddressRejected, store) else
  match addressById addressId store with
  | None => (AddressNext (mkError "Address not found" 404 []), store)
  | Some (i, found) =>
      let address := applyUpdate updateData found in
      (AddressJson 200 false "Address updated successfully"
                   (OneAddress address),
       <[i := address]> store)
  end.

(** [deleteAddress]: [findByIdAndDelete(addressId)]. *)
Definition deleteAddress (addressId : ObjectId) (store : list AddressDoc.t)
  : AddressOutcome * list AddressDoc.t :=
  match addressById addressId store with
  | None => (AddressNext (mkError "Address not found" 404 []), store)
  | Some (i, address) =>
      (AddressJson 200 false "Address deleted successfully"
                   (OneAddress address),
       delete i store)
  end.

End AddressController.

(** ** The transaction schema's [toJSON] transform *)

Section TransactionModel.

(** The values of a plain object, with JavaScript's [undefined]. *)
Variable V : Type.
Variable undefined : V.

(** [transform(doc, ret) { ret.id = ret._id; delete ret.__v; }] *)
Definition toJSON_transform (ret : gmap string V) : gmap string V :=
  delete "__v" (<["id" := default undefined (ret !! "_id")]> ret).

End TransactionModel.

(** ** The header middleware of the application *)





(** *** More concrete collaborators and stores *)

Module Cases.

Definition refuseRegister (us : list UserDoc.t) (b : RegisterDTO.t)
  : Validation.t unit :=
  Validation.mk true 400 "firstName is required" tt.

(** A validator that accepts and issues an empty token. *)
Definition emptyToken (us : list UserDoc.t) (env : Env) (b : LoginBody.t)
  : Validation.t LoginData.t :=
  Validation.mk false 200 "" (LoginData.mk "u1" (Some "")).

Definition mailerUp (to : JsString) (url : string) : EmailResult.t :=
  EmailResult.mk false 200 "sent".

Definition resetDoc : TokenDoc.t :=
  TokenDoc.mk (Some "u1") None (Some "forgotPassword:u1") (Some 5000).

Definition otherDoc : TokenDoc.t :=
  TokenDoc.mk (Some "u7") None (Some "forgotPassword:u7") None.

(** The sample store after password resets were asked for. *)
Definition resetStore : World :=
  mkWorld [Sample.alice] [otherDoc; resetDoc] [].

(** A token that carries both keys, and stores that hold it: for a
    stored user, and for a user who is gone. *)
Definition bothKeysDoc (u : ObjectId) : TokenDoc.t :=
  TokenDoc.mk (Some u) (Some u) (Some "old-token") (Some 5000).

Definition bothKeysStore : World :=
  mkWorld [Sample.alice] [otherDoc; bothKeysDoc "u1"] [].

Definition orphanStore : World :=
  mkWorld [Sample.alice] [otherDoc; bothKeysDoc "u9"] [].

Definition wrongPassword : LoginBody.t :=
  LoginBody.mk (Some "a@b.com") (Some "secret").

Definition home : AddressDoc.t :=
  AddressDoc.mk "a1" "u1" (Some "1 Main St") (Some "Lagos") (Some "LA")
                (Some "100001") (Some "NG").

Definition office : AddressDoc.t :=
  AddressDoc.mk "a2" "u2" (Some "2 Side St") (Some "Abuja") (Some "FC")
                (Some "900001") (Some "NG").

Definition addresses : list AddressDoc.t := [home; office].

Definition newAddress : AddressBody.t :=
  AddressBody.mk (Some "3 Hill Rd") (Some "Ibadan") (Some "OY")
                 (Some "200001") (Some "NG").

Definition moveCity : AddressUpdate.t :=
  AddressUpdate.mk None None (Some "Kano") None None None.

Definition anyAddress (a : AddressDoc.t) : bool := true.

Definition anyUpdate (u : AddressUpdate.t) : bool := true.

End Cases.

Section AuthController.

(** *** Collaborators that are not in the sources *)

Variable Mapped : Type.
(** [authMapper.mapRegisteredUser], called on a user document by
    [register] and on [validate.data] by [login]. *)
Variable mapRegisteredUser : UserDoc.t + LoginData.t -> Mapped.
(** [AuthService.validateRegister] and [AuthService.validateLogin]; they
    may read the credential store, and the token a login issues may
    depend on the request's clock and entropy. *)
Variable validateRegister : list UserDoc.t -> RegisterDTO.t -> Validation.t unit.
Variable validateLogin :
  list UserDoc.t -> Env -> LoginBody.t -> Validation.t LoginData.t.
(** [generateRandomChars(n)] of [utils/helper.util], from the request's
    entropy. *)
Variable generateRandomChars : string -> nat -> string.
(** [tokenService.generateToken(payload, secret, expiresInSeconds)] *)
Variable generateToken : TokenPayload.t -> string -> Z -> string.
(** [process.env.TOKEN_SECRET] and [process.env.CLIENT_URL] *)
Variable TOKEN_SECRET : string.
Variable CLIENT_URL : string.
(** [emailService.validateEmail] and the outcome the notification
    service reports for [emailService.sendPasswordForgotEmail]. *)
Variable validateEmail : JsString -> bool.
Variable sendPasswordForgotEmail : JsString -> string -> EmailResult.t.
(** [user.matchPassword(candidate)], the one-way comparison of the user
    schema, and [userService.checkPassword], the acceptance policy. *)
Variable matchPassword : UserDoc.t -> JsString -> bool.
Variable checkPassword : JsString -> bool.

Local Abbreviation Handler := (Handler Mapped).

(** *** The models *)

(** [User.findOne({ email })] *)
Definition User_findOne_email (e : JsString) : Handler (Found UserDoc.t) :=
  query (OpUserFindOneEmail e)
        (fun w => userByEmail e (users w)).

(** [User.findOne({ _id })] *)
Definition User_findOne_id (i : ObjectId) : Handler (Found UserDoc.t) :=
  query (OpUserFindOneId i)
        (fun w => userById i (users w)).

(** [User.findById(id)] *)
Definition User_findById (i : ObjectId) : Handler (Found UserDoc.t) :=
  query (OpUserFindById i)
        (fun w => userById i (users w)).

(** [user.save()] on a document read at position [i].  The hashing hook
    of the user schema is not in the sources: the field is stored as the
    controller assigned it. *)
Definition User_save (i : nat) (u : UserDoc.t) : Handler unit :=
  update (OpUserSave (UserDoc._id u))
         (fun w => set_users (<[i := u]> (users w)) w).

(** [Token.findOne({ userId })] *)
Definition Token_findOne (i : ObjectId) : Handler (Found TokenDoc.t) :=
  query (OpTokenFindOne i)
        (fun w => tokenByUserId i (tokens w)).

(** [authToken.save()] *)
Definition Token_save (i : nat) (d : TokenDoc.t) : Handler unit :=
  update OpTokenSave (fun w => set_tokens (<[i := d]> (tokens w)) w).

(** [Token.create(doc)] *)
Definition Token_create (d : TokenDoc.t) : Handler unit :=
  update OpTokenCreate (fun w => set_tokens (tokens w ++ [d]) w).

(** *** The services *)

Definition AuthService_validateRegister (b : RegisterDTO.t)
  : Handler (Validation.t unit) :=
  query OpValidateRegister (fun w => validateRegister (users w) b).

Definition AuthService_validateLogin (env : Env) (b : LoginBody.t)
  : Handler (Validation.t LoginData.t) :=
  query OpValidateLogin (fun w => validateLogin (users w) env b).

(** Modelled from the spec: [userService.createUser] is not in the
    sources.  Of what the spec says of it, this keeps that [register]
    creates exactly one User from the payload, with the id the store
    assigns.  The lower-casing of the stored email and the uniqueness
    check at write time that the spec gives the user record belong to
    the user schema, which is not in the sources either; they are not
    modelled, and the document takes the payload's fields as they are.
    Nothing below is about what a write of a second user with an email
    that is already stored, in whatever letter case, comes to. *)
Definition userService_createUser (env : Env) (p : CreateUserDTO.t)
  : Handler UserDoc.t :=
  fun w =>
    let u := UserDoc.mk (freshId env)
               (CreateUserDTO.firstName p) (CreateUserDTO.lastName p)
               (CreateUserDTO.email p) (CreateUserDTO.password p)
               (CreateUserDTO.username p) (CreateUserDTO.userType p)
               (CreateUserDTO.role p) (CreateUserDTO.isUser p)
               (CreateUserDTO.isGuest p) (CreateUserDTO.isSuper p)
               (CreateUserDTO.isAdmin p) (CreateUserDTO.isMerchant p) in
    (Pending u, log OpUserCreate (set_users (users w ++ [u]) w)).

Definition emailService_sendPasswordForgotEmail (to : JsString) (url : string)
  : Handler EmailResult.t :=
  query OpSendEmail (fun _ => sendPasswordForgotEmail to url).

(** *** The handlers *)

(** [POST /auth/register].  [email] is read from the body before the
    body's email is lower-cased, so the validator sees the lower-cased
    address while the lookup and [createUser] get the one that was sent. *)
Definition register (env : Env) (body : RegisterDTO.t) : Handler unit :=
  let email := RegisterDTO.email body in
  let password := RegisterDTO.password body in
  let firstName := RegisterDTO.firstName body in
  let lastName := RegisterDTO.lastName body in
  let body :=
    if truthy (RegisterDTO.email body)
    then RegisterDTO.set_email (toLowerCase <$> RegisterDTO.email body) body
    else body in
  let! validate := AuthService_validateRegister body in
  if Validation.error validate then
    next (mkError "Error" (Validation.code validate)
                  [Validation.message validate])
  else
  let! existUser := User_findOne_email email in
  if existUser is Some _ then
    next (mkError "Error" 403 ["User already exists, use another email"])
  else
  let username := generateRandomChars (entropy env) 24 in
  let! user :=
    userService_createUser env
      (CreateUserDTO.mk firstName lastName email password username
                        USER USER true false false false false) in
  let mapped := mapRegisteredUser (inl user) in
  json 200 (mkEnvelope false [] (MappedData mapped)
                       "User registered successfully." 200).

(** [POST /auth/login].  The [console.log] of the found token has no
    effect on the stores or the response and is left out. *)
Definition login (env : Env) (body : LoginBody.t) : Handler unit :=
  if negb (truthy (LoginBody.email body))
     || negb (truthy (LoginBody.password body))
  then next (mkError "Email and password are required" 400 [])
  else
  let body := LoginBody.set_email (toLowerCase <$> LoginBody.email body) body in
  let! validate := AuthService_validateLogin env body in
  if Validation.error validate then
    next (mkError "Error" (Validation.code validate)
                  [Validation.message validate])
  else
  let data := Validation.data validate in
  let! authToken := Token_findOne (LoginData.id data) in
  (match authToken with
   | Some (i, authToken) =>
       Token_save i (TokenDoc.set_token (LoginData.token data) authToken)
   | None =>
       if negb (truthy (LoginData.token data)) then
         next (mkError "Token generation failed" 500 [])
       else
         Token_create (TokenDoc.mk None (Some (LoginData.id data))
                                   (LoginData.token data)
                                   (Some (now env + 3600 * 1000)))
   end) ;;!
  let! user := User_findOne_id (LoginData.id data) in
  if user is None then next (mkError "User not found" 404 []) else
  let mappedData := mapRegisteredUser (inr data) in
  json 200 (mkEnvelope false [] (LoginMapped mappedData (LoginData.token data))
                       "User login successful" 200).

(** [POST /auth/logout] *)
Definition logout : Handler unit :=
  json 200 (mkEnvelope false [] NoData "User logged out successfully." 200).

(** [POST /auth/forgot-password] *)
Definition forgotPassword (body : ForgotPasswordBody.t) : Handler unit :=
  let email := ForgotPasswordBody.email body in
  if negb (validateEmail email) then
    next (mkError "Invalid email format." 400 [])
  else
  let! user := User_findOne_email email in
  match user with
  | None => next (mkError "Error" 404 ["User with this email does not exist"])
  | Some (_, user) =>
      let resetToken :=
        generateToken (TokenPayload.mk (UserDoc._id user) "forgotPassword")
                      TOKEN_SECRET 900 in
      Token_create (TokenDoc.mk (Some (UserDoc._id user)) None
                                (Some resetToken) None) ;;!
      let resetUrl :=
        CLIENT_URL +:+ "/forgot-password?token=" +:+ resetToken
                   +:+ "&id=" +:+ UserDoc._id user in
      let! emailResult :=
        emailService_sendPasswordForgotEmail (UserDoc.email user) resetUrl in
      if EmailResult.error emailResult then
        next (mkError "Error" (EmailResult.code emailResult)
                      [EmailResult.message emailResult])
      else
        json 200 (mkEnvelope false [] EmptyData
                             "Forgot Password link sent to your email" 200)
  end.

Definition passwordPolicyMessage : string :=
  "password must contain, 1 uppercase letter, one special character, one number and must be greater than 8 characters".

(** [POST /auth/change-password]; [userId] is [req.user.id]. *)
Definition changePassword (userId : ObjectId) (body : ChangePasswordBody.t)
  : Handler unit :=
  let oldPassword := ChangePasswordBody.oldPassword body in
  let newPassword := ChangePasswordBody.newPassword body in
  let! user := User_findById userId in
  match user with
  | None => next (mkError "User not found" 404 [])
  | Some (i, user) =>
      let isMatch := matchPassword user oldPassword in
      if negb isMatch then
        next (mkError "Old password is incorrect" 400 [])
      else if negb (checkPassword newPassword) then
        next (mkError passwordPolicyMessage 400 [])
      else
        User_save i (UserDoc.set_password newPassword user) ;;!
        json 200 (mkEnvelope false [] EmptyData
                             "Password changed successfully" 200)
  end.

(** Requests served one after the other. *)
Fixpoint serve {R} (h : R -> Handler unit) (reqs : list R) (w : World)
  : list (Outcome Mapped unit) * World :=
  match reqs with
  | [] => ([], w)
  | r :: reqs =>
      let '(o, w1) := h r w in
      let '(os, w2) := serve h reqs w1 in
      (o :: os, w2)
  end.

(** *** Names for what the handlers compute on the way *)

(** The validation result [login] works with: the validator runs on the
    body whose email has been lower-cased. *)
Definition loginValidation (env : Env) (body : LoginBody.t) (w : World)
  : Validation.t LoginData.t :=
  validateLogin (users w) env
    (LoginBody.set_email (toLowerCase <$> LoginBody.email body) body).

(** The document [login] creates when it finds no token. *)
Definition loginTokenDoc (env : Env) (data : LoginData.t) : TokenDoc.t :=
  TokenDoc.mk None (Some (LoginData.id data)) (LoginData.token data)
              (Some (now env + 3600 * 1000)).

(** The reset token, the document and the link [forgotPassword] makes
    for a user. *)
Definition resetTokenOf (u : UserDoc.t) : string :=
  generateToken (TokenPayload.mk (UserDoc._id u) "forgotPassword")
                TOKEN_SECRET 900.

Definition resetTokenDoc (u : UserDoc.t) : TokenDoc.t :=
  TokenDoc.mk (Some (UserDoc._id u)) None (Some (resetTokenOf u)) None.

Definition resetUrlOf (u : UserDoc.t) : string :=
  CLIENT_URL +:+ "/forgot-password?token=" +:+ resetTokenOf u
             +:+ "&id=" +:+ UserDoc._id u.

(** The validation result [register] works with: the validator sees the
    body with its email lower-cased, when there is one. *)
Definition registerValidation (body : RegisterDTO.t) (w : World)
  : Validation.t unit :=
  validateRegister (users w)
    (if truthy (RegisterDTO.email body)
     then RegisterDTO.set_email (toLowerCase <$> RegisterDTO.email body) body
     else body).


(** ** Properties of the handlers *)

(** Run the monad's plumbing and read the fields of the worlds it built. *)
Ltac run_handler :=
  unfold bind, query, update, next, json, log, set_users, set_tokens;
  cbn [users tokens trace fst snd].

(** The lookups find nothing exactly when no document matches. *)
Lemma userByEmail_None (e : JsString) (us : list UserDoc.t) :
  userByEmail e us = None <-> forall u, u ∈ us -> UserDoc.email u <> e.
Proof.
  unfold userByEmail. split.
  - intros H%list_find_None. rewrite Forall_forall in H. exact H.
  - intros H. apply list_find_None, Forall_forall. exact H.
Qed.

Lemma userById_None (i : ObjectId) (us : list UserDoc.t) :
  userById i us = None <-> forall u, u ∈ us -> UserDoc._id u <> i.
Proof.
  unfold userById. split.
  - intros H%list_find_None. rewrite Forall_forall in H. exact H.
  - intros H. apply list_find_None, Forall_forall. exact H.
Qed.

Lemma tokenByUserId_None (i : ObjectId) (ts : list TokenDoc.t) :
  tokenByUserId i ts = None <-> forall d, d ∈ ts -> TokenDoc.userId d <> Some i.
Proof.
  unfold tokenByUserId. split.
  - intros H%list_find_None. rewrite Forall_forall in H. exact H.
  - intros H. apply list_find_None, Forall_forall. exact H.
Qed.

(** C6: a login whose body lacks the email or the password is answered
    with the 400 error "Email and password are required", and the world
    is left as it was: no document is touched and the trace gains no
    call, so neither store nor the validator has been reached. *)
Theorem login_missing_field_rejected (env : Env) (body : LoginBody.t) (w : World) :
  LoginBody.email body = None \/ LoginBody.password body = None ->
  login env body w
  = (Sent (Next (mkError "Email and password are required" 400 [])), w).
Proof.
  intros Habsent. unfold login.
  destruct Habsent as [-> | ->]; simpl.
  - reflexivity.
  - rewrite orb_true_r. reflexivity.
Qed.

(** C9: [logout] answers 200 with the success envelope and returns the
    world it was given: no user, no token and no entry of the trace
    differs, so nothing was read or written. *)
Theorem logout_no_state_change (w : World) :
  logout w
  = (Sent (Json 200 (mkEnvelope false [] NoData
                                "User logged out successfully." 200)), w).
Proof. reflexivity. Qed.

(** C7: when the email passes the format check and no stored user has
    it, [forgotPassword] answers with the 404 error and has only looked
    the user up: the token store is the one it started from and no
    [Token.create] is on the trace. *)
Theorem forgotPassword_unknown_email
    (body : ForgotPasswordBody.t) (w : World) :
  validateEmail (ForgotPasswordBody.email body) = true ->
  userByEmail (ForgotPasswordBody.email body) (users w) = None ->
  exists w',
    forgotPassword body w
    = (Sent (Next (mkError "Error" 404 ["User with this email does not exist"])),
       w')
    /\ tokens w' = tokens w
    /\ users w' = users w
    /\ trace w'
       = trace w ++ [OpUserFindOneEmail (ForgotPasswordBody.email body)].
Proof.
  intros Hvalid Hfind.
  eexists. split.
  - unfold forgotPassword. rewrite Hvalid. simpl.
    unfold bind, User_findOne_email, query. rewrite Hfind. reflexivity.
  - auto.
Qed.

(** C5: when [forgotPassword] gets as far as sending the email and the
    notification service reports an error, the handler forwards that
    error's code and message, and the token store still holds the reset
    token document the persist step appended: nothing removes it. *)
Theorem forgotPassword_email_failure_keeps_token
    (body : ForgotPasswordBody.t) (w : World) (i : nat) (u : UserDoc.t) :
  validateEmail (ForgotPasswordBody.email body) = true ->
  userByEmail (ForgotPasswordBody.email body) (users w) = Some (i, u) ->
  EmailResult.error (sendPasswordForgotEmail (UserDoc.email u) (resetUrlOf u))
  = true ->
  exists w',
    forgotPassword body w
    = (Sent (Next (mkError "Error"
         (EmailResult.code
            (sendPasswordForgotEmail (UserDoc.email u) (resetUrlOf u)))
         [EmailResult.message
            (sendPasswordForgotEmail (UserDoc.email u) (resetUrlOf u))])),
       w')
    /\ tokens w' = tokens w ++ [resetTokenDoc u]
    /\ trace w'
       = trace w ++ [OpUserFindOneEmail (ForgotPasswordBody.email body);
                     OpTokenCreate; OpSendEmail].
Proof.
  intros Hvalid Hfind Hfail.
  eexists. split.
  - unfold forgotPassword. rewrite Hvalid. simpl.
    unfold bind, User_findOne_email, query. rewrite Hfind. simpl.
    fold (resetTokenOf u). fold (resetUrlOf u). rewrite Hfail. reflexivity.
  - simpl. rewrite <- !app_assoc. auto.
Qed.

(** C8: a login that passes validation and finds no token under the
    user's id is answered with status 500 exactly when the issued token
    is empty; in that case the store keeps its tokens, and otherwise the
    store gains one token document whose expiry is the request's clock
    plus 3600 * 1000 milliseconds. *)
Theorem login_first_token (env : Env) (body : LoginBody.t) (w : World) :
  let data := Validation.data (loginValidation env body w) in
  truthy (LoginBody.email body) = true ->
  truthy (LoginBody.password body) = true ->
  Validation.error (loginValidation env body w) = false ->
  tokenByUserId (LoginData.id data) (tokens w) = None ->
  exists r w',
    login env body w = (Sent r, w')
    /\ (statusOf r = 500 <-> truthy (LoginData.token data) = false)
    /\ (truthy (LoginData.token data) = false ->
        r = Next (mkError "Token generation failed" 500 [])
        /\ tokens w' = tokens w)
    /\ (truthy (LoginData.token data) = true ->
        tokens w' = tokens w ++ [loginTokenDoc env data]
        /\ TokenDoc.expiresAt (loginTokenDoc env data)
           = Some (now env + 3600 * 1000)).
Proof.
  intros data Hemail Hpassword Hvalid Hnone.
  unfold login. rewrite Hemail, Hpassword. cbn [negb orb].
  unfold AuthService_validateLogin, Token_findOne, User_findOne_id,
    Token_create.
  run_handler.
  fold (loginValidation env body w). rewrite Hvalid. fold data.
  run_handler. rewrite Hnone.
  destruct (truthy (LoginData.token data)) eqn:Htoken; cbn [negb].
  - run_handler.
    destruct (userById (LoginData.id data) (users w)) as [[j u]|];
      (do 2 eexists; split; [reflexivity|]); cbn [statusOf err_code tokens];
      (split; [split; discriminate|]); (split; [discriminate|]);
      intros _; split; reflexivity.
  - do 2 eexists. split; [reflexivity|]. cbn [statusOf err_code tokens].
    split; [split; reflexivity|]. split; [|discriminate].
    intros _. split; reflexivity.
Qed.

(** C10: when validation passes, the token step goes through (a token is
    found under the user's id, or the issued token is not empty) and the
    lookup of the user by id finds nobody, [login] answers with the 404
    error "User not found" -- and the token store has already been
    written.  If a document was found, the store holds in its place a
    document with the same keys and expiry whose token is the issued
    one; if none was found, the store has gained the new document, made
    of the user's id, the issued token and the expiry one hour on.  The
    trace shows the write before the lookup of the user. *)
Theorem login_user_vanished_keeps_token
    (env : Env) (body : LoginBody.t) (w : World) :
  let data := Validation.data (loginValidation env body w) in
  let found := tokenByUserId (LoginData.id data) (tokens w) in
  truthy (LoginBody.email body) = true ->
  truthy (LoginBody.password body) = true ->
  Validation.error (loginValidation env body w) = false ->
  is_Some found \/ truthy (LoginData.token data) = true ->
  userById (LoginData.id data) (users w) = None ->
  exists w',
    login env body w = (Sent (Next (mkError "User not found" 404 [])), w')
    /\ tokens w'
       = match found with
         | Some (i, d) =>
             <[i := TokenDoc.mk (TokenDoc.userId d) (TokenDoc.user d)
                                (LoginData.token data) (TokenDoc.expiresAt d)]>
               (tokens w)
         | None =>
             tokens w ++ [TokenDoc.mk None (Some (LoginData.id data))
                                      (LoginData.token data)
                                      (Some (now env + 3600 * 1000))]
         end
    /\ (forall i d, found = Some (i, d) ->
          exists d', tokens w' !! i = Some d'
                     /\ TokenDoc.token d' = LoginData.token data
                     /\ TokenDoc.userId d' = TokenDoc.userId d
                     /\ TokenDoc.user d' = TokenDoc.user d
                     /\ TokenDoc.expiresAt d' = TokenDoc.expiresAt d)
    /\ (found = None ->
          exists d', tokens w' !! length (tokens w) = Some d'
                     /\ TokenDoc.token d' = LoginData.token data
                     /\ TokenDoc.user d' = Some (LoginData.id data)
                     /\ TokenDoc.expiresAt d' = Some (now env + 3600 * 1000))
    /\ trace w'
       = trace w ++ [OpValidateLogin; OpTokenFindOne (LoginData.id data);
                     if found is Some _ then OpTokenSave else OpTokenCreate;
                     OpUserFindOneId (LoginData.id data)].
Proof.
  intros data found Hemail Hpassword Hvalid Hstep Hgone.
  unfold login. rewrite Hemail, Hpassword. cbn [negb orb].
  unfold AuthService_validateLogin, Token_findOne, User_findOne_id,
    Token_create, Token_save.
  run_handler.
  fold (loginValidation env body w). rewrite Hvalid. fold data.
  run_handler. subst found.
  destruct (tokenByUserId (LoginData.id data) (tokens w)) as [[i d]|]
    eqn:Hfound.
  - run_handler. rewrite Hgone.
    eexists. split; [reflexivity|]. cbn [tokens trace].
    split; [reflexivity|]. split; [|split].
    + intros i0 d0 [= <- <-].
      exists (TokenDoc.mk (TokenDoc.userId d) (TokenDoc.user d)
                          (LoginData.token data) (TokenDoc.expiresAt d)).
      split; [|repeat split; reflexivity].
      apply list_find_Some in Hfound as (Hi & _).
      apply list_lookup_insert_eq. eapply lookup_lt_Some, Hi.
    + discriminate.
    + rewrite <- !app_assoc. reflexivity.
  - destruct Hstep as [[x Hx]|Htoken]; [discriminate|].
    rewrite Htoken. cbn [negb]. run_handler. rewrite Hgone.
    eexists. split; [reflexivity|]. cbn [tokens trace].
    split; [reflexivity|]. split; [|split].
    + discriminate.
    + intros _.
      exists (TokenDoc.mk None (Some (LoginData.id data))
                          (LoginData.token data)
                          (Some (now env + 3600 * 1000))).
      split; [|repeat split; reflexivity].
      rewrite lookup_app_r by lia. rewrite Nat.sub_diag. reflexivity.
    + rewrite <- !app_assoc. reflexivity.
Qed.

(** C4: let [u] be the stored user a change-password request is made
    for.  If the old password does not match [u]'s stored password, or
    the policy check refuses the new password, the request is answered
    with a 400 error whose message says which of the two went wrong, and
    the user store (hence [u]'s stored password) is the one the request
    found. *)
Theorem changePassword_rejected_keeps_password
    (userId : ObjectId) (body : ChangePasswordBody.t) (w : World)
    (i : nat) (u : UserDoc.t) :
  userById userId (users w) = Some (i, u) ->
  matchPassword u (ChangePasswordBody.oldPassword body) = false
  \/ checkPassword (ChangePasswordBody.newPassword body) = false ->
  exists msg w',
    changePassword userId body w = (Sent (Next (mkError msg 400 [])), w')
    /\ msg = (if matchPassword u (ChangePasswordBody.oldPassword body)
              then passwordPolicyMessage
              else "Old password is incorrect")
    /\ msg <> ""
    /\ users w' = users w
    /\ tokens w' = tokens w.
Proof.
  intros Hfind Hbad.
  unfold changePassword, User_findById. run_handler. rewrite Hfind.
  destruct (matchPassword u (ChangePasswordBody.oldPassword body)) eqn:Hmatch;
    cbn [negb].
  - destruct Hbad as [Hold|Hnew]; [discriminate|].
    rewrite Hnew. cbn [negb].
    do 2 eexists. split; [reflexivity|].
    repeat split. unfold passwordPolicyMessage. discriminate.
  - do 2 eexists. split; [reflexivity|].
    repeat split. discriminate.
Qed.


(** A change-password request for an id that is not stored is answered
    404 and writes nothing. *)
Lemma changePassword_unknown_user
    (userId : ObjectId) (body : ChangePasswordBody.t) (w : World) :
  userById userId (users w) = None ->
  exists w',
    changePassword userId body w
    = (Sent (Next (mkError "User not found" 404 [])), w')
    /\ users w' = users w.
Proof.
  intros Hnone. unfold changePassword, User_findById. run_handler.
  rewrite Hnone. eexists. split; reflexivity.
Qed.

(** *** Repeated logins *)

Lemma login_users (env : Env) (body : LoginBody.t) (w : World) :
  users (login env body w).2 = users w.
Proof.
  unfold login, AuthService_validateLogin, Token_findOne, User_findOne_id,
    Token_create, Token_save.
  run_handler.
  repeat (case_match; run_handler; simplify_eq/=; try reflexivity).
Qed.

Lemma loginValidation_users (env : Env) (body : LoginBody.t) (w1 w2 : World) :
  users w1 = users w2 ->
  loginValidation env body w1 = loginValidation env body w2.
Proof. unfold loginValidation. intros ->. reflexivity. Qed.

(** A login answered 200 that found no token under the user's id has
    appended its own document. *)
Lemma login_succeeded_appends (env : Env) (body : LoginBody.t) (w : World) :
  let data := Validation.data (loginValidation env body w) in
  succeeded (login env body w).1 = true ->
  tokenByUserId (LoginData.id data) (tokens w) = None ->
  tokens (login env body w).2 = tokens w ++ [loginTokenDoc env data].
Proof.
  intros data. subst data.
  unfold loginTokenDoc, loginValidation, login, AuthService_validateLogin,
    Token_findOne, User_findOne_id, Token_create, Token_save.
  run_handler.
  destruct (negb _ || negb _); [discriminate|].
  destruct (Validation.error _); [discriminate|].
  run_handler. intros Hok Hnone. revert Hok. rewrite Hnone.
  destruct (negb _); [discriminate|].
  run_handler. destruct (userById _ _); [reflexivity|discriminate].
Qed.

(** The document [login] appends is not under the key [login] looks up. *)
Lemma tokenByUserId_skips_login_doc
    (u : ObjectId) (ts : list TokenDoc.t) (env : Env) (data : LoginData.t) :
  tokenByUserId u ts = None ->
  tokenByUserId u (ts ++ [loginTokenDoc env data]) = None.
Proof.
  rewrite !tokenByUserId_None. intros Hts d [Hd|Hd]%elem_of_app.
  - auto.
  - apply list_elem_of_singleton in Hd. subst d. discriminate.
Qed.

Lemma tokensOf_login_doc
    (u : ObjectId) (ts : list TokenDoc.t) (env : Env) (data : LoginData.t) :
  LoginData.id data = u ->
  length (tokensOf u (ts ++ [loginTokenDoc env data]))
  = S (length (tokensOf u ts)).
Proof.
  intros <-. unfold tokensOf. rewrite filter_app, length_app.
  rewrite filter_cons_True by (left; reflexivity).
  simpl. lia.
Qed.

(** C1: [login] looks a token up under [userId] and creates it under
    [user], so a login never finds what an earlier login created.  From a
    store with no token under the [userId] of user [u], logins for [u]
    that are all answered 200 append one document each: afterwards the
    store holds as many more documents of [u] as there were logins. *)
Theorem repeated_login_one_record_each
    (u : ObjectId) (reqs : list (Env * LoginBody.t)) (w : World) :
  let issued (r : Env * LoginBody.t) :=
    Validation.data (loginValidation r.1 r.2 w) in
  tokenByUserId u (tokens w) = None ->
  Forall (fun r => LoginData.id (issued r) = u) reqs ->
  Forall (fun o => succeeded o = true)
         (serve (fun r => login r.1 r.2) reqs w).1 ->
  let w' := (serve (fun r => login r.1 r.2) reqs w).2 in
  tokens w' = tokens w ++ map (fun r => loginTokenDoc r.1 (issued r)) reqs
  /\ length (tokensOf u (tokens w'))
     = (length (tokensOf u (tokens w)) + length reqs)%nat.
Proof.
  intros issued. unfold issued. clear issued.
  revert w. induction reqs as [|[env body] reqs IH]; intros w Hnone Hfor Hok.
  - simpl. rewrite app_nil_r. split; [reflexivity|lia].
  - apply Forall_cons in Hfor as [Hu Hfor]. simpl in Hu.
    simpl in Hok |- *.
    destruct (login env body w) as [o w1] eqn:Hlogin.
    destruct (serve _ reqs w1) as [os w2] eqn:Hserve.
    simpl in Hok |- *. apply Forall_cons in Hok as [Ho Hos].
    assert (Husers : users w1 = users w).
    { pose proof (login_users env body w) as H. rewrite Hlogin in H. exact H. }
    assert (Htokens : tokens w1
                      = tokens w ++ [loginTokenDoc env
                          (Validation.data (loginValidation env body w))]).
    { pose proof (login_succeeded_appends env body w) as H.
      rewrite Hlogin in H. apply H; [exact Ho|]. rewrite Hu. exact Hnone. }
    specialize (IH w1). rewrite Hserve in IH. simpl in IH.
    destruct IH as [IHt IHn].
    + rewrite Htokens. apply tokenByUserId_skips_login_doc, Hnone.
    + eapply Forall_impl; [exact Hfor|]. intros [e b] Hr. simpl in *.
      rewrite (loginValidation_users e b w1 w Husers). exact Hr.
    + exact Hos.
    + split.
      * rewrite IHt, Htokens, <- app_assoc. simpl. do 2 f_equal.
        apply map_ext. intros [e b]. simpl.
        rewrite (loginValidation_users e b w1 w Husers). reflexivity.
      * rewrite IHn, Htokens, tokensOf_login_doc by exact Hu. lia.
Qed.

(** *** More on [login] *)

Lemma truthy_toLowerCase (e : JsString) : truthy (toLowerCase <$> e) = truthy e.
Proof. destruct e as [[|c s]|]; reflexivity. Qed.

(** X1: two logins with the same password whose emails differ only in
    the case of the letters [A] to [Z] get the same answer and leave the
    same world: [login] lower-cases the email before anything reads it,
    and the test for a missing email does not depend on the case. *)
Theorem login_email_case_insensitive
    (env : Env) (body1 body2 : LoginBody.t) (w : World) :
  sameEmail (LoginBody.email body1) (LoginBody.email body2) ->
  LoginBody.password body1 = LoginBody.password body2 ->
  login env body1 w = login env body2 w.
Proof.
  unfold sameEmail. intros Hemail Hpassword.
  unfold login, LoginBody.set_email.
  rewrite <- (truthy_toLowerCase (LoginBody.email body1)).
  rewrite <- (truthy_toLowerCase (LoginBody.email body2)).
  rewrite Hemail, Hpassword. reflexivity.
Qed.

(** X2: when the validator refuses a login, its code and message are
    forwarded and only the validator has been called: no token and no
    user is looked up or written. *)
Theorem login_validation_failure (env : Env) (body : LoginBody.t) (w : World) :
  truthy (LoginBody.email body) = true ->
  truthy (LoginBody.password body) = true ->
  Validation.error (loginValidation env body w) = true ->
  login env body w
  = (Sent (Next (mkError "Error"
                   (Validation.code (loginValidation env body w))
                   [Validation.message (loginValidation env body w)])),
     log OpValidateLogin w).
Proof.
  intros Hemail Hpassword Hrefused.
  unfold login. rewrite Hemail, Hpassword. cbn [negb orb].
  unfold AuthService_validateLogin. run_handler.
  fold (loginValidation env body w). rewrite Hrefused. reflexivity.
Qed.

(** The token store after a validated login that found a token. *)
Lemma login_found_tokens
    (env : Env) (body : LoginBody.t) (w : World) (i : nat) (d : TokenDoc.t) :
  let data := Validation.data (loginValidation env body w) in
  truthy (LoginBody.email body) = true ->
  truthy (LoginBody.password body) = true ->
  Validation.error (loginValidation env body w) = false ->
  tokenByUserId (LoginData.id data) (tokens w) = Some (i, d) ->
  tokens (login env body w).2
  = <[i := TokenDoc.set_token (LoginData.token data) d]> (tokens w).
Proof.
  intros data Hemail Hpassword Hvalid Hfound.
  unfold login. rewrite Hemail, Hpassword. cbn [negb orb].
  unfold AuthService_validateLogin, Token_findOne, User_findOne_id,
    Token_save.
  run_handler. fold (loginValidation env body w). rewrite Hvalid.
  fold data. run_handler. rewrite Hfound. run_handler.
  destruct (userById _ _); reflexivity.
Qed.

(** X3: a validated login that finds a token under the user's id writes
    the new value into that document, in place: the store keeps its
    length, every other document is as it was, and the document that
    replaces the found one has the issued token and, unchanged, both
    owner keys ([userId] and [user]) and the expiry -- a repeated login
    does not move [expiresAt]. *)
Theorem login_overwrites_in_place
    (env : Env) (body : LoginBody.t) (w : World) (i : nat) (d : TokenDoc.t) :
  let data := Validation.data (loginValidation env body w) in
  let d' := TokenDoc.mk (TokenDoc.userId d) (TokenDoc.user d)
                        (LoginData.token data) (TokenDoc.expiresAt d) in
  let w' := (login env body w).2 in
  truthy (LoginBody.email body) = true ->
  truthy (LoginBody.password body) = true ->
  Validation.error (loginValidation env body w) = false ->
  tokenByUserId (LoginData.id data) (tokens w) = Some (i, d) ->
  tokens w' = <[i := d']> (tokens w)
  /\ tokens w' !! i = Some d'
  /\ TokenDoc.userId d' = Some (LoginData.id data)
  /\ length (tokens w') = length (tokens w)
  /\ forall j, j <> i -> tokens w' !! j = tokens w !! j.
Proof.
  intros data d' w' Hemail Hpassword Hvalid Hfound.
  assert (Htokens : tokens w' = <[i := d']> (tokens w))
    by (apply login_found_tokens; assumption).
  apply list_find_Some in Hfound as (Hi & Hid & _).
  rewrite Htokens. split; [reflexivity|]. split.
  { apply list_lookup_insert_eq. eapply lookup_lt_Some, Hi. }
  split; [exact Hid|].
  split; [apply length_insert|].
  intros j Hj. apply list_lookup_insert_ne. congruence.
Qed.

(** X4: the check for an empty token guards the creation only.  When a token
    document is found and the user exists, a validated login is answered
    200 whatever the issued token is: an empty or absent token is stored
    and returned. *)
Theorem login_empty_token_overwrites
    (env : Env) (body : LoginBody.t) (w : World)
    (i j : nat) (d : TokenDoc.t) (u : UserDoc.t) :
  let data := Validation.data (loginValidation env body w) in
  truthy (LoginBody.email body) = true ->
  truthy (LoginBody.password body) = true ->
  Validation.error (loginValidation env body w) = false ->
  truthy (LoginData.token data) = false ->
  tokenByUserId (LoginData.id data) (tokens w) = Some (i, d) ->
  userById (LoginData.id data) (users w) = Some (j, u) ->
  exists w',
    login env body w
    = (Sent (Json 200
         (mkEnvelope false []
            (LoginMapped (mapRegisteredUser (inr data)) (LoginData.token data))
            "User login successful" 200)), w')
    /\ tokens w' !! i = Some (TokenDoc.set_token (LoginData.token data) d).
Proof.
  intros data Hemail Hpassword Hvalid Hempty Hfound Huser.
  unfold login. rewrite Hemail, Hpassword. cbn [negb orb].
  unfold AuthService_validateLogin, Token_findOne, User_findOne_id, Token_save.
  run_handler. fold (loginValidation env body w). rewrite Hvalid.
  fold data. run_handler. rewrite Hfound. run_handler. rewrite Huser.
  eexists. split; [reflexivity|]. cbn [tokens].
  apply list_find_Some in Hfound as (Hi & _).
  apply list_lookup_insert_eq. eapply lookup_lt_Some, Hi.
Qed.

(** X5: [login] is answered 200 in exactly one situation: both fields are
    there, the validator accepts, the token step goes through (a token
    is found, or the issued token is not empty) and the user is found by
    id. *)
Theorem login_succeeds_iff (env : Env) (body : LoginBody.t) (w : World) :
  let data := Validation.data (loginValidation env body w) in
  succeeded (login env body w).1 = true
  <-> truthy (LoginBody.email body) = true
      /\ truthy (LoginBody.password body) = true
      /\ Validation.error (loginValidation env body w) = false
      /\ (is_Some (tokenByUserId (LoginData.id data) (tokens w))
          \/ truthy (LoginData.token data) = true)
      /\ is_Some (userById (LoginData.id data) (users w)).
Proof.
  intros data. subst data.
  unfold loginValidation, login, AuthService_validateLogin, Token_findOne,
    User_findOne_id, Token_create, Token_save.
  run_handler.
  destruct (truthy (LoginBody.email body)); cbn [negb orb];
    [|cbn; split; [discriminate|intros (? & _); discriminate]].
  destruct (truthy (LoginBody.password body)); cbn [negb orb];
    [|cbn; split; [discriminate|intros (_ & ? & _); discriminate]].
  destruct (Validation.error _);
    [cbn; split; [discriminate|intros (_ & _ & ? & _); discriminate]|].
  run_handler.
  destruct (tokenByUserId _ _) as [[i d]|]; run_handler.
  - destruct (userById _ _) as [[j u]|]; cbn.
    + split; [intros _|reflexivity]. repeat split; eauto.
    + split; [discriminate|]. intros (_ & _ & _ & _ & [x Hx]). discriminate.
  - destruct (truthy (LoginData.token _)); cbn [negb]; run_handler.
    + destruct (userById _ _) as [[j u]|]; cbn.
      * split; [intros _|reflexivity]. repeat split; eauto.
      * split; [discriminate|]. intros (_ & _ & _ & _ & [x Hx]). discriminate.
    + cbn. split; [discriminate|].
      intros (_ & _ & _ & [[x Hx]|Hx] & _); discriminate.
Qed.

(** X6: whatever the request, [login] leaves the user store alone, removes no
    token, adds at most one, and leaves every token that is not under
    the validated user's [userId] as it was. *)
Theorem login_frame (env : Env) (body : LoginBody.t) (w : World) :
  let data := Validation.data (loginValidation env body w) in
  let w' := (login env body w).2 in
  users w' = users w
  /\ (length (tokens w) <= length (tokens w') <= S (length (tokens w)))%nat
  /\ forall j d, tokens w !! j = Some d ->
       TokenDoc.userId d <> Some (LoginData.id data) ->
       tokens w' !! j = Some d.
Proof.
  intros data w'. split; [apply login_users|].
  subst w' data.
  unfold loginValidation, login, AuthService_validateLogin, Token_findOne,
    User_findOne_id, Token_create, Token_save.
  run_handler.
  destruct (negb _ || negb _); [cbn [snd tokens]; split; [lia|auto]|].
  destruct (Validation.error _); [cbn [snd tokens]; split; [lia|auto]|].
  run_handler.
  destruct (tokenByUserId _ _) as [[i d]|] eqn:Hfound; run_handler.
  - destruct (userById _ _); cbn [snd tokens];
      (split; [rewrite length_insert; lia|]);
      intros j d0 Hj Hother;
      apply list_find_Some in Hfound as (Hi & Hid & _);
      (rewrite list_lookup_insert_ne; [exact Hj|]);
      intros ->; rewrite Hi in Hj; injection Hj as ->; contradiction.
  - destruct (negb _); run_handler; [cbn [snd tokens]; split; [lia|auto]|].
    destruct (userById _ _); cbn [snd tokens];
      (split; [rewrite length_app; simpl; lia|]);
      intros j d0 Hj _; apply lookup_app_l_Some; exact Hj.
Qed.

(** *** More on [register] *)

(** X7: when the validator refuses a registration, its code and message are
    forwarded and only the validator has been called: the email is not
    looked up and no user is created. *)
Theorem register_validation_failure
    (env : Env) (body : RegisterDTO.t) (w : World) :
  Validation.error (registerValidation body w) = true ->
  register env body w
  = (Sent (Next (mkError "Error"
                   (Validation.code (registerValidation body w))
                   [Validation.message (registerValidation body w)])),
     log OpValidateRegister w).
Proof.
  intros Hrefused.
  unfold register, AuthService_validateRegister. run_handler.
  fold (registerValidation body w). rewrite Hrefused. reflexivity.
Qed.





(** *** More on [forgotPassword] *)

(** X10: an email that fails the format check is refused with the 400 error
    before anything is looked up: the world is left as it was. *)
Theorem forgotPassword_invalid_email
    (body : ForgotPasswordBody.t) (w : World) :
  validateEmail (ForgotPasswordBody.email body) = false ->
  forgotPassword body w
  = (Sent (Next (mkError "Invalid email format." 400 [])), w).
Proof.
  intros Hbad. unfold forgotPassword. rewrite Hbad. reflexivity.
Qed.

(** X11: when the user is found and the notification service reports no
    error, [forgotPassword] answers 200 with empty data, having appended
    the reset token document and sent the link to the address stored
    for the user. *)
Theorem forgotPassword_success
    (body : ForgotPasswordBody.t) (w : World) (i : nat) (u : UserDoc.t) :
  validateEmail (ForgotPasswordBody.email body) = true ->
  userByEmail (ForgotPasswordBody.email body) (users w) = Some (i, u) ->
  EmailResult.error (sendPasswordForgotEmail (UserDoc.email u) (resetUrlOf u))
  = false ->
  exists w',
    forgotPassword body w
    = (Sent (Json 200 (mkEnvelope false [] EmptyData
                         "Forgot Password link sent to your email" 200)), w')
    /\ tokens w' = tokens w ++ [resetTokenDoc u]
    /\ UserDoc.email u = ForgotPasswordBody.email body
    /\ trace w'
       = trace w ++ [OpUserFindOneEmail (ForgotPasswordBody.email body);
                     OpTokenCreate; OpSendEmail].
Proof.
  intros Hvalid Hfind Hsent.
  eexists. split.
  - unfold forgotPassword. rewrite Hvalid. cbn [negb].
    unfold User_findOne_email, Token_create,
      emailService_sendPasswordForgotEmail.
    run_handler. rewrite Hfind. run_handler.
    fold (resetTokenOf u). fold (resetUrlOf u). rewrite Hsent. reflexivity.
  - cbn [tokens trace]. split; [reflexivity|]. split.
    + apply list_find_Some in Hfind as (_ & He & _). exact He.
    + rewrite <- !app_assoc. reflexivity.
Qed.

(** The stores after a forgot-password request. *)
Lemma forgotPassword_stores (body : ForgotPasswordBody.t) (w : World) :
  let e := ForgotPasswordBody.email body in
  let w' := (forgotPassword body w).2 in
  users w' = users w
  /\ tokens w'
     = if validateEmail e
       then match userByEmail e (users w) with
            | Some (_, u) => tokens w ++ [resetTokenDoc u]
            | None => tokens w
            end
       else tokens w.
Proof.
  unfold forgotPassword, User_findOne_email, Token_create,
    emailService_sendPasswordForgotEmail.
  cbn zeta.
  destruct (validateEmail _); cbn [negb]; [|split; reflexivity].
  run_handler.
  destruct (userByEmail _ _) as [[i u]|]; [|split; reflexivity].
  run_handler. destruct (EmailResult.error _); split; reflexivity.
Qed.

(** X12: what [forgotPassword] does to the stores does not depend on the
    outcome of the email: the user store is never written, and the token
    store gains the reset document exactly when the email is well formed
    and a user has it; no token that was there is changed or removed. *)
Theorem forgotPassword_frame (body : ForgotPasswordBody.t) (w : World) :
  let e := ForgotPasswordBody.email body in
  let w' := (forgotPassword body w).2 in
  users w' = users w
  /\ tokens w'
     = if validateEmail e
       then match userByEmail e (users w) with
            | Some (_, u) => tokens w ++ [resetTokenDoc u]
            | None => tokens w
            end
       else tokens w.
Proof. exact (forgotPassword_stores body w). Qed.

(** X13: reset tokens pile up: [n] forgot-password requests for the email of a
    stored user leave [n] more token documents under that user's id,
    none replacing an earlier one. *)
Theorem repeated_forgotPassword_accumulates
    (n : nat) (body : ForgotPasswordBody.t) (w : World)
    (i : nat) (u : UserDoc.t) :
  validateEmail (ForgotPasswordBody.email body) = true ->
  userByEmail (ForgotPasswordBody.email body) (users w) = Some (i, u) ->
  let w' := (serve forgotPassword (replicate n body) w).2 in
  length (tokens w') = (length (tokens w) + n)%nat
  /\ length (tokensOf (UserDoc._id u) (tokens w'))
     = (length (tokensOf (UserDoc._id u) (tokens w)) + n)%nat.
Proof.
  intros Hvalid. revert w.
  induction n as [|n IH]; intros w Hfind; cbn zeta.
  - simpl. split; lia.
  - simpl. destruct (forgotPassword body w) as [o w1] eqn:Hrun.
    destruct (serve _ (replicate n body) w1) as [os w2] eqn:Hserve.
    pose proof (forgotPassword_stores body w) as [Husers Htokens].
    rewrite Hrun in Husers, Htokens. cbn [snd] in Husers, Htokens.
    rewrite Hvalid, Hfind in Htokens.
    specialize (IH w1). rewrite Hserve in IH. cbn [snd] in IH.
    destruct IH as [IHlen IHown]; [rewrite Husers; exact Hfind|].
    cbn [snd]. rewrite IHlen, IHown, Htokens.
    unfold tokensOf. rewrite filter_app, !length_app.
    rewrite filter_cons_True by (right; reflexivity).
    simpl. split; lia.
Qed.

(** X14: a login that follows a forgot-password request takes the reset
    document for the user's login token: from a store with no token
    under the user's [userId], the two requests leave one document, which
    holds the login token where the reset token was and has no expiry. *)
Theorem login_replaces_reset_token
    (fbody : ForgotPasswordBody.t) (env : Env) (lbody : LoginBody.t)
    (w : World) (i : nat) (u : UserDoc.t) :
  let w1 := (forgotPassword fbody w).2 in
  let data := Validation.data (loginValidation env lbody w) in
  validateEmail (ForgotPasswordBody.email fbody) = true ->
  userByEmail (ForgotPasswordBody.email fbody) (users w) = Some (i, u) ->
  tokenByUserId (UserDoc._id u) (tokens w) = None ->
  truthy (LoginBody.email lbody) = true ->
  truthy (LoginBody.password lbody) = true ->
  Validation.error (loginValidation env lbody w) = false ->
  LoginData.id data = UserDoc._id u ->
  tokens w1 = tokens w ++ [resetTokenDoc u]
  /\ tokens (login env lbody w1).2
     = tokens w ++ [TokenDoc.mk (Some (UserDoc._id u)) None
                                (LoginData.token data) None].
Proof.
  intros w1 data Hvalid Hfind Hnone Hemail Hpassword Hok Hid.
  pose proof (forgotPassword_stores fbody w) as [Husers Htokens].
  cbn zeta in Husers, Htokens. fold w1 in Husers, Htokens.
  rewrite Hvalid, Hfind in Htokens. split; [exact Htokens|].
  assert (Hsame : loginValidation env lbody w1 = loginValidation env lbody w)
    by (apply loginValidation_users; exact Husers).
  assert (Hfound : tokenByUserId (UserDoc._id u) (tokens w1)
                   = Some (length (tokens w), resetTokenDoc u)).
  { rewrite Htokens. unfold tokenByUserId in *.
    rewrite list_find_app_r by exact Hnone.
    cbn. rewrite decide_True by reflexivity. reflexivity. }
  pose proof (login_found_tokens env lbody w1 (length (tokens w))
                (resetTokenDoc u)) as Hlogin.
  cbn zeta in Hlogin. rewrite Hsame in Hlogin. fold data in Hlogin.
  rewrite Hid in Hlogin.
  rewrite (Hlogin Hemail Hpassword Hok Hfound), Htokens.
  rewrite insert_app_r_alt by lia.
  rewrite Nat.sub_diag. reflexivity.
Qed.

(** *** More on [changePassword] *)

(** X15: when the old password matches and the policy accepts the new one,
    [changePassword] answers 200 and the user's document, still found
    under the same id, holds the new password; the other fields of the
    document and the token store are as they were. *)
Theorem changePassword_success
    (userId : ObjectId) (body : ChangePasswordBody.t) (w : World)
    (i : nat) (u : UserDoc.t) :
  let u' := UserDoc.set_password (ChangePasswordBody.newPassword body) u in
  userById userId (users w) = Some (i, u) ->
  matchPassword u (ChangePasswordBody.oldPassword body) = true ->
  checkPassword (ChangePasswordBody.newPassword body) = true ->
  exists w',
    changePassword userId body w
    = (Sent (Json 200 (mkEnvelope false [] EmptyData
                         "Password changed successfully" 200)), w')
    /\ users w' = <[i := u']> (users w)
    /\ userById userId (users w') = Some (i, u')
    /\ UserDoc.password u' = ChangePasswordBody.newPassword body
    /\ tokens w' = tokens w.
Proof.
  intros u' Hfind Hmatch Hpolicy.
  unfold changePassword, User_findById, User_save. run_handler.
  rewrite Hfind, Hmatch. cbn [negb]. rewrite Hpolicy. cbn [negb].
  run_handler. fold u'.
  eexists. split; [reflexivity|]. cbn [users tokens].
  split; [reflexivity|]. split; [|split; reflexivity].
  unfold userById in *.
  apply list_find_Some in Hfind as (Hi & Hid & Hbefore).
  apply list_find_Some. split; [|split].
  - apply list_lookup_insert_eq. eapply lookup_lt_Some, Hi.
  - exact Hid.
  - intros j y Hj Hlt. rewrite list_lookup_insert_ne in Hj by lia.
    eapply Hbefore; eassumption.
Qed.

(** X16: whatever the request, [changePassword] writes nothing but a
    password: the token store is untouched, and with the passwords
    blanked the user store after the request is the one before it. *)
Theorem changePassword_frame
    (userId : ObjectId) (body : ChangePasswordBody.t) (w : World) :
  let w' := (changePassword userId body w).2 in
  tokens w' = tokens w
  /\ UserDoc.set_password None <$> users w'
     = UserDoc.set_password None <$> users w.
Proof.
  unfold changePassword, User_findById, User_save. run_handler.
  destruct (userById userId (users w)) as [[i u]|] eqn:Hfind;
    [|split; reflexivity].
  destruct (negb (matchPassword _ _)); [split; reflexivity|].
  destruct (negb (checkPassword _)); [split; reflexivity|].
  run_handler. cbn [snd tokens users]. split; [reflexivity|].
  apply list_find_Some in Hfind as (Hi & _).
  rewrite list_fmap_insert. apply list_insert_id.
  rewrite list_lookup_fmap, Hi. reflexivity.
Qed.

End AuthController.

(** ** The handlers at concrete requests *)

(** Two logins of the same user, run on the sample store: both are
    answered 200, and each leaves its own token document. *)
Example login_twice_run :
  serve ObjectId
        (fun r => login ObjectId Sample.mapUser Sample.checkCredentials r.1 r.2)
        [Sample.firstLogin; Sample.secondLogin] Sample.store
  = ([Sent (Json 200 (mkEnvelope false [] (LoginMapped "u1" (Some "token-one"))
                                 "User login successful" 200));
      Sent (Json 200 (mkEnvelope false [] (LoginMapped "u1" (Some "token-two"))
                                 "User login successful" 200))],
     mkWorld [Sample.alice]
             [TokenDoc.mk None (Some "u1") (Some "token-one") (Some 3601000);
              TokenDoc.mk None (Some "u1") (Some "token-two") (Some 3602000)]
             [OpValidateLogin; OpTokenFindOne "u1"; OpTokenCreate;
              OpUserFindOneId "u1";
              OpValidateLogin; OpTokenFindOne "u1"; OpTokenCreate;
              OpUserFindOneId "u1"]).
Proof. vm_compute. reflexivity. Qed.

(** A login that follows a forgot-password request finds the reset token
    under [userId] and overwrites it. *)
Example login_after_forgotPassword_run :
  let w1 := (forgotPassword ObjectId Sample.signToken "secret" "https://shop"
               Sample.wellFormed
               (fun _ _ => EmailResult.mk false 200 "sent")
               (ForgotPasswordBody.mk (Some "a@b.com")) Sample.store).2 in
  tokens w1 = [TokenDoc.mk (Some "u1") None (Some "forgotPassword:u1") None]
  /\ tokens (login ObjectId Sample.mapUser Sample.checkCredentials
               Sample.secondLogin.1 Sample.secondLogin.2 w1).2
     = [TokenDoc.mk (Some "u1") None (Some "token-two") None].
Proof. vm_compute. split; reflexivity. Qed.

Example passwordPolicy_no_digit : passwordPolicy (Some "Abcdefgh!") = false.
Proof. reflexivity. Qed.

Example passwordPolicy_accepts : passwordPolicy (Some "Abcdefgh1!") = true.
Proof. reflexivity. Qed.

Lemma repeated_login_one_record_each_witness :
  let reqs := [Sample.firstLogin; Sample.secondLogin] in
  let run :=
    serve ObjectId
      (fun r => login ObjectId Sample.mapUser Sample.checkCredentials r.1 r.2)
      reqs Sample.store in
  tokenByUserId "u1" (tokens Sample.store) = None
  /\ Forall (fun o => succeeded o = true) run.1
  /\ length (tokensOf "u1" (tokens run.2)) = 2%nat.
Proof.
  intros reqs run.
  assert (Hnone : tokenByUserId "u1" (tokens Sample.store) = None)
    by reflexivity.
  assert (Hok : Forall (fun o => succeeded o = true) run.1)
    by (vm_compute; repeat constructor).
  split; [exact Hnone|]. split; [exact Hok|].
  apply (repeated_login_one_record_each ObjectId Sample.mapUser
           Sample.checkCredentials "u1" reqs Sample.store Hnone).
  - vm_compute. repeat constructor.
  - exact Hok.
Defined.

Lemma changePassword_rejected_keeps_password_witness :
  let body := ChangePasswordBody.mk (Some "Secret1!") (Some "Abcdefgh!") in
  passwordPolicy (ChangePasswordBody.newPassword body) = false
  /\ exists msg w',
       changePassword ObjectId Sample.samePassword passwordPolicy "u1" body
                      Sample.store
       = (Sent (Next (mkError msg 400 [])), w')
       /\ msg = passwordPolicyMessage
       /\ msg <> ""
       /\ users w' = users Sample.store
       /\ tokens w' = tokens Sample.store.
Proof.
  intros body. split; [reflexivity|].
  apply (changePassword_rejected_keeps_password ObjectId Sample.samePassword
           passwordPolicy "u1" body Sample.store 0%nat Sample.alice).
  - reflexivity.
  - right. reflexivity.
Defined.

Lemma forgotPassword_email_failure_keeps_token_witness :
  exists w',
    forgotPassword ObjectId Sample.signToken "secret" "https://shop"
                   Sample.wellFormed Sample.mailerDown
                   (ForgotPasswordBody.mk (Some "a@b.com")) Sample.store
    = (Sent (Next (mkError "Error" 500 ["Email could not be sent"])), w')
    /\ tokens w'
       = [TokenDoc.mk (Some "u1") None (Some "forgotPassword:u1") None]
    /\ trace w'
       = [OpUserFindOneEmail (Some "a@b.com"); OpTokenCreate; OpSendEmail].
Proof.
  apply (forgotPassword_email_failure_keeps_token ObjectId Sample.signToken
           "secret" "https://shop" Sample.wellFormed Sample.mailerDown
           (ForgotPasswordBody.mk (Some "a@b.com")) Sample.store 0%nat
           Sample.alice); reflexivity.
Defined.

Lemma login_missing_field_rejected_witness :
  let body := LoginBody.mk (Some "a@b.com") None in
  (LoginBody.email body = None \/ LoginBody.password body = None)
  /\ login ObjectId Sample.mapUser Sample.checkCredentials
           (mkEnv 1000 "t1" "one") body Sample.store
     = (Sent (Next (mkError "Email and password are required" 400 [])),
        Sample.store).
Proof.
  intros body. split; [right; reflexivity|].
  apply login_missing_field_rejected. right. reflexivity.
Defined.

Lemma forgotPassword_unknown_email_witness :
  let body := ForgotPasswordBody.mk (Some "nobody@b.com") in
  userByEmail (ForgotPasswordBody.email body) (users Sample.store) = None
  /\ exists w',
       forgotPassword ObjectId Sample.signToken "secret" "https://shop"
                      Sample.wellFormed Sample.mailerDown body Sample.store
       = (Sent (Next (mkError "Error" 404
                              ["User with this email does not exist"])), w')
       /\ tokens w' = tokens Sample.store
       /\ users w' = users Sample.store
       /\ trace w'
          = trace Sample.store ++ [OpUserFindOneEmail (Some "nobody@b.com")].
Proof.
  intros body. split; [reflexivity|].
  apply (forgotPassword_unknown_email ObjectId Sample.signToken "secret"
           "https://shop" Sample.wellFormed Sample.mailerDown body
           Sample.store); reflexivity.
Defined.

Lemma login_first_token_witness :
  exists r w',
    login ObjectId Sample.mapUser Sample.checkCredentials
          Sample.firstLogin.1 Sample.firstLogin.2 Sample.store
    = (Sent r, w')
    /\ (statusOf r = 500 <-> truthy (Some "token-one") = false)
    /\ (truthy (Some "token-one") = false ->
        r = Next (mkError "Token generation failed" 500 [])
        /\ tokens w' = tokens Sample.store)
    /\ (truthy (Some "token-one") = true ->
        tokens w'
        = tokens Sample.store
          ++ [loginTokenDoc Sample.firstLogin.1
                            (LoginData.mk "u1" (Some "token-one"))]
        /\ TokenDoc.expiresAt
             (loginTokenDoc Sample.firstLogin.1
                            (LoginData.mk "u1" (Some "token-one")))
           = Some (1000 + 3600 * 1000)).
Proof.
  apply (login_first_token ObjectId Sample.mapUser Sample.checkCredentials
           Sample.firstLogin.1 Sample.firstLogin.2 Sample.store); reflexivity.
Defined.

Lemma login_user_vanished_keeps_token_witness :
  let env := mkEnv 1000 "t1" "one" in
  let body := LoginBody.mk (Some "gone@b.com") (Some "Secret1!") in
  (userById "u9" (users Sample.store) = None
   /\ tokenByUserId "u9" (tokens Sample.store) = None
   /\ exists w',
        login ObjectId Sample.mapUser Sample.staleCredentials env body
              Sample.store
        = (Sent (Next (mkError "User not found" 404 [])), w')
        /\ tokens w'
           = [TokenDoc.mk None (Some "u9") (Some "token-one") (Some 3601000)]
        /\ trace w'
           = [OpValidateLogin; OpTokenFindOne "u9"; OpTokenCreate;
              OpUserFindOneId "u9"])
  /\ (userById "u9" (users Cases.orphanStore) = None
      /\ tokenByUserId "u9" (tokens Cases.orphanStore)
         = Some (1%nat, Cases.bothKeysDoc "u9")
      /\ exists w',
           login ObjectId Sample.mapUser Sample.staleCredentials env body
                 Cases.orphanStore
           = (Sent (Next (mkError "User not found" 404 [])), w')
           /\ tokens w'
              = [Cases.otherDoc;
                 TokenDoc.mk (Some "u9") (Some "u9") (Some "token-one")
                             (Some 5000)]
           /\ trace w'
              = [OpValidateLogin; OpTokenFindOne "u9"; OpTokenSave;
                 OpUserFindOneId "u9"]).
Proof.
  intros env body. split.
  - split; [reflexivity|]. split; [reflexivity|].
    destruct (login_user_vanished_keeps_token ObjectId Sample.mapUser
                Sample.staleCredentials env body Sample.store
                eq_refl eq_refl eq_refl (or_intror eq_refl) eq_refl)
      as (w' & Hrun & Htokens & _ & _ & Htrace).
    exists w'. split; [exact Hrun|]. split; [exact Htokens|exact Htrace].
  - split; [reflexivity|]. split; [reflexivity|].
    destruct (login_user_vanished_keeps_token ObjectId Sample.mapUser
                Sample.staleCredentials env body Cases.orphanStore
                eq_refl eq_refl eq_refl
                (or_introl (ex_intro _ (1%nat, Cases.bothKeysDoc "u9") eq_refl))
                eq_refl)
      as (w' & Hrun & Htokens & _ & _ & Htrace).
    exists w'. split; [exact Hrun|]. split; [exact Htokens|exact Htrace].
Defined.

(** ** Properties of the address controller *)

Section AddressProperties.

Variable schemaAccepts : AddressDoc.t -> bool.
Variable updateAccepts : AddressUpdate.t -> bool.

(** X18: [deleteAddress] removes one document at most, and only one with the
    id it was given: the addresses with another id are all still there,
    in the order they had. *)
Theorem deleteAddress_keeps_others
    (addressId : ObjectId) (store : list AddressDoc.t) :
  let store' := (deleteAddress addressId store).2 in
  filter (fun a => AddressDoc._id a <> addressId) store'
  = filter (fun a => AddressDoc._id a <> addressId) store
  /\ length store
     = (length store'
        + if addressById addressId store is Some _ then 1 else 0)%nat.
Proof.
  unfold deleteAddress.
  destruct (addressById addressId store) as [[i a]|] eqn:Hfind; cbn [snd].
  - apply list_find_Some in Hfind as (Hi & Hid & _).
    rewrite <- (take_drop_middle store i a Hi) at 2 3.
    rewrite delete_take_drop.
    rewrite !filter_app, filter_cons_False by (intros H; apply H, Hid).
    split; [reflexivity|]. rewrite !length_app. simpl. lia.
  - split; [reflexivity|lia].
Qed.

(** X19: with distinct ids in the store, an address that has been deleted is
    gone: deleting it again is answered 404 and changes nothing. *)
Theorem deleteAddress_twice
    (addressId : ObjectId) (store : list AddressDoc.t)
    (i : nat) (a : AddressDoc.t) :
  NoDup (AddressDoc._id <$> store) ->
  addressById addressId store = Some (i, a) ->
  let store' := (deleteAddress addressId store).2 in
  (deleteAddress addressId store).1
  = AddressJson 200 false "Address deleted successfully" (OneAddress a)
  /\ deleteAddress addressId store'
     = (AddressNext (mkError "Address not found" 404 []), store').
Proof.
  intros Hnodup Hfind. unfold deleteAddress at 1 2. rewrite Hfind. cbn [fst snd].
  split; [reflexivity|].
  assert (Hgone : addressById addressId (delete i store) = None).
  { apply list_find_None, Forall_forall. intros b Hb Hidb.
    apply list_find_Some in Hfind as (Hi & Hid & _).
    apply list_elem_of_lookup in Hb as [j Hj].
    assert (Hk : exists k, k <> i /\ store !! k = Some b).
    { destruct (decide (j < i)%nat).
      - exists j. rewrite list_lookup_delete_lt in Hj by lia. split; [lia|exact Hj].
      - exists (S j). rewrite list_lookup_delete_ge in Hj by lia.
        split; [lia|exact Hj]. }
    destruct Hk as (k & Hki & Hk).
    apply Hki. eapply (NoDup_lookup _ k i addressId Hnodup).
    - rewrite list_lookup_fmap, Hk. simpl. congruence.
    - rewrite list_lookup_fmap, Hi. simpl. congruence. }
  unfold deleteAddress. rewrite Hgone. reflexivity.
Qed.

(** X21: an address the schema accepts is created for the authenticated user:
    it comes last in that user's list, and the list of every other user
    is what it was. *)
Theorem createAddress_then_listed
    (env : Env) (user : ObjectId) (body : AddressBody.t)
    (store : list AddressDoc.t) :
  let address :=
    AddressDoc.mk (freshId env) user
      (AddressBody.street body) (AddressBody.city body)
      (AddressBody.state body) (AddressBody.postalCode body)
      (AddressBody.country body) in
  let store' := (createAddress schemaAccepts env user body store).2 in
  schemaAccepts address = true ->
  (createAddress schemaAccepts env user body store).1
  = AddressJson 201 false "Address created successfully" (OneAddress address)
  /\ (getUserAddresses user store').1
     = AddressJson 200 false "Addresses fetched successfully"
         (AddressList (filter (fun a => AddressDoc.user a = user) store
                       ++ [address]))
  /\ forall other, other <> user ->
       (getUserAddresses other store').1 = (getUserAddresses other store).1.
Proof.
  intros address store' Hok. subst store'.
  unfold createAddress. fold address. rewrite Hok. cbn [fst snd].
  split; [reflexivity|]. unfold getUserAddresses. cbn [fst]. split.
  - rewrite filter_app, filter_cons_True by reflexivity. reflexivity.
  - intros other Hother.
    rewrite filter_app, filter_cons_False by (cbn; congruence).
    rewrite filter_nil, app_nil_r. reflexivity.
Qed.

(** X22: an accepted update of a stored address is made in place: the answer
    carries the updated document, which is found again under the same
    id at the same position; the store keeps its length and every other
    address. *)
Theorem updateAddress_in_place
    (addressId : ObjectId) (updateData : AddressUpdate.t)
    (store : list AddressDoc.t) (i : nat) (a : AddressDoc.t) :
  let a' := applyUpdate updateData a in
  let store' := (updateAddress updateAccepts addressId updateData store).2 in
  updateAccepts updateData = true ->
  addressById addressId store = Some (i, a) ->
  (updateAddress updateAccepts addressId updateData store).1
  = AddressJson 200 false "Address updated successfully" (OneAddress a')
  /\ addressById addressId store' = Some (i, a')
  /\ length store' = length store
  /\ forall j, j <> i -> store' !! j = store !! j.
Proof.
  intros a' store' Hok Hfind. subst store'.
  unfold updateAddress. rewrite Hok, Hfind. cbn [negb fst snd]. fold a'.
  split; [reflexivity|].
  unfold addressById in *.
  apply list_find_Some in Hfind as (Hi & Hid & Hbefore).
  split; [|split].
  - apply list_find_Some. split; [|split].
    + apply list_lookup_insert_eq. eapply lookup_lt_Some, Hi.
    + exact Hid.
    + intros j y Hj Hlt. rewrite list_lookup_insert_ne in Hj by lia.
      eapply Hbefore; eassumption.
  - apply length_insert.
  - intros j Hj. apply list_lookup_insert_ne. congruence.
Qed.

End AddressProperties.

(** ** Properties of the [toJSON] transform and of the header middleware *)

Section TransformProperties.

Variable V : Type.
Variable undefined : V.

(** X24: the transform copies [_id] to [id] ([undefined] when there is no
    [_id]), removes [__v], and leaves every other key alone -- among them
    [_id] itself and [_version], the version key the schema sets. *)
Theorem toJSON_transform_lookup (ret : gmap string V) :
  let out := toJSON_transform V undefined ret in
  out !! "id" = Some (default undefined (ret !! "_id"))
  /\ out !! "__v" = None
  /\ out !! "_id" = ret !! "_id"
  /\ out !! "_version" = ret !! "_version"
  /\ forall k, k <> "id" -> k <> "__v" -> out !! k = ret !! k.
Proof.
  unfold toJSON_transform. cbn zeta.
  assert (Hother : forall k : string, k <> "id" -> k <> "__v" ->
            delete "__v" (<["id" := default undefined (ret !! "_id")]> ret) !! k
            = ret !! k).
  { intros k Hid Hv.
    rewrite lookup_delete_ne by congruence.
    rewrite lookup_insert_ne by congruence. reflexivity. }
  split; [|split; [|split; [|split]]].
  - rewrite lookup_delete_ne by discriminate. apply lookup_insert_eq.
  - apply lookup_delete_eq.
  - apply Hother; discriminate.
  - apply Hother; discriminate.
  - exact Hother.
Qed.

(** X25: transforming an object that has been transformed changes nothing. *)
Theorem toJSON_transform_idempotent (ret : gmap string V) :
  toJSON_transform V undefined (toJSON_transform V undefined ret)
  = toJSON_transform V undefined ret.
Proof.
  apply map_eq. intros k. unfold toJSON_transform.
  destruct (decide (k = "__v")) as [->|Hv].
  - rewrite !lookup_delete_eq. reflexivity.
  - rewrite !(lookup_delete_ne _ "__v" k) by congruence.
    destruct (decide (k = "id")) as [->|Hid].
    + rewrite !lookup_insert_eq.
      rewrite lookup_delete_ne, lookup_insert_ne by discriminate.
      reflexivity.
    + rewrite !(lookup_insert_ne _ "id" k) by congruence.
      rewrite lookup_delete_ne by congruence.
      rewrite lookup_insert_ne by congruence. reflexivity.
Qed.

End TransformProperties.


(** ** The further properties at concrete requests *)

Lemma login_validation_failure_witness :
  let env := mkEnv 1000 "t1" "one" in
  Validation.error
    (loginValidation Sample.checkCredentials env Cases.wrongPassword
                     Sample.store) = true
  /\ login ObjectId Sample.mapUser Sample.checkCredentials env
           Cases.wrongPassword Sample.store
     = (Sent (Next (mkError "Error" 400 ["Invalid credentials"])),
        log OpValidateLogin Sample.store).
Proof.
  intros env. split; [reflexivity|].
  apply (login_validation_failure ObjectId Sample.mapUser
           Sample.checkCredentials env Cases.wrongPassword Sample.store);
    reflexivity.
Defined.

Lemma login_overwrites_in_place_witness :
  let w' := (login ObjectId Sample.mapUser Sample.checkCredentials
               Sample.secondLogin.1 Sample.secondLogin.2
               Cases.bothKeysStore).2 in
  let d' := TokenDoc.mk (Some "u1") (Some "u1") (Some "token-two")
                        (Some 5000) in
  tokenByUserId "u1" (tokens Cases.bothKeysStore)
  = Some (1%nat, Cases.bothKeysDoc "u1")
  /\ tokens w' = [Cases.otherDoc; d']
  /\ tokens w' !! 1%nat = Some d'.
Proof.
  intros w' d'.
  assert (Hfound : tokenByUserId "u1" (tokens Cases.bothKeysStore)
                   = Some (1%nat, Cases.bothKeysDoc "u1")) by reflexivity.
  split; [exact Hfound|].
  destruct (login_overwrites_in_place ObjectId Sample.mapUser
              Sample.checkCredentials Sample.secondLogin.1
              Sample.secondLogin.2 Cases.bothKeysStore 1%nat
              (Cases.bothKeysDoc "u1") eq_refl eq_refl eq_refl Hfound)
    as (Htokens & Hat & _).
  split; [exact Htokens|exact Hat].
Defined.

Lemma login_empty_token_overwrites_witness :
  let env := mkEnv 3000 "t3" "three" in
  let body := LoginBody.mk (Some "a@b.com") (Some "Secret1!") in
  exists w',
    login ObjectId Sample.mapUser Cases.emptyToken env body Cases.resetStore
    = (Sent (Json 200 (mkEnvelope false [] (LoginMapped "u1" (Some ""))
                                  "User login successful" 200)), w')
    /\ tokens w' !! 1%nat
       = Some (TokenDoc.mk (Some "u1") None (Some "") (Some 5000)).
Proof.
  intros env body.
  apply (login_empty_token_overwrites ObjectId Sample.mapUser Cases.emptyToken
           env body Cases.resetStore 1%nat 0%nat Cases.resetDoc Sample.alice);
    reflexivity.
Defined.

Lemma register_validation_failure_witness :
  register ObjectId Sample.mapUser Cases.refuseRegister Sample.randomChars
           (mkEnv 3000 "u2" "k3x") Sample.registerAgain Sample.store
  = (Sent (Next (mkError "Error" 400 ["firstName is required"])),
     log OpValidateRegister Sample.store).
Proof.
  apply (register_validation_failure ObjectId Sample.mapUser
           Cases.refuseRegister Sample.randomChars (mkEnv 3000 "u2" "k3x")
           Sample.registerAgain Sample.store).
  reflexivity.
Defined.


Lemma forgotPassword_invalid_email_witness :
  forgotPassword ObjectId Sample.signToken "secret" "https://shop"
                 Sample.wellFormed Cases.mailerUp
                 (ForgotPasswordBody.mk None) Sample.store
  = (Sent (Next (mkError "Invalid email format." 400 [])), Sample.store).
Proof.
  apply (forgotPassword_invalid_email ObjectId Sample.signToken "secret"
           "https://shop" Sample.wellFormed Cases.mailerUp
           (ForgotPasswordBody.mk None) Sample.store).
  reflexivity.
Defined.

Lemma forgotPassword_success_witness :
  exists w',
    forgotPassword ObjectId Sample.signToken "secret" "https://shop"
                   Sample.wellFormed Cases.mailerUp
                   (ForgotPasswordBody.mk (Some "a@b.com")) Sample.store
    = (Sent (Json 200 (mkEnvelope false [] EmptyData
                         "Forgot Password link sent to your email" 200)), w')
    /\ tokens w'
       = [TokenDoc.mk (Some "u1") None (Some "forgotPassword:u1") None]
    /\ UserDoc.email Sample.alice = Some "a@b.com"
    /\ trace w'
       = [OpUserFindOneEmail (Some "a@b.com"); OpTokenCreate; OpSendEmail].
Proof.
  apply (forgotPassword_success ObjectId Sample.signToken "secret"
           "https://shop" Sample.wellFormed Cases.mailerUp
           (ForgotPasswordBody.mk (Some "a@b.com")) Sample.store 0%nat
           Sample.alice); reflexivity.
Defined.

Lemma repeated_forgotPassword_accumulates_witness :
  let w' :=
    (serve ObjectId
       (forgotPassword ObjectId Sample.signToken "secret" "https://shop"
                       Sample.wellFormed Sample.mailerDown)
       (replicate 3 (ForgotPasswordBody.mk (Some "a@b.com")))
       Sample.store).2 in
  length (tokens w') = 3%nat
  /\ length (tokensOf "u1" (tokens w')) = 3%nat.
Proof.
  apply (repeated_forgotPassword_accumulates ObjectId Sample.signToken
           "secret" "https://shop" Sample.wellFormed Sample.mailerDown 3
           (ForgotPasswordBody.mk (Some "a@b.com")) Sample.store 0%nat
           Sample.alice); reflexivity.
Defined.

Lemma login_replaces_reset_token_witness :
  let w1 :=
    (forgotPassword ObjectId Sample.signToken "secret" "https://shop"
                    Sample.wellFormed Cases.mailerUp
                    (ForgotPasswordBody.mk (Some "a@b.com")) Sample.store).2 in
  tokens w1 = [TokenDoc.mk (Some "u1") None (Some "forgotPassword:u1") None]
  /\ tokens (login ObjectId Sample.mapUser Sample.checkCredentials
               Sample.secondLogin.1 Sample.secondLogin.2 w1).2
     = [TokenDoc.mk (Some "u1") None (Some "token-two") None].
Proof.
  apply (login_replaces_reset_token ObjectId Sample.mapUser
           Sample.checkCredentials Sample.signToken "secret" "https://shop"
           Sample.wellFormed Cases.mailerUp
           (ForgotPasswordBody.mk (Some "a@b.com")) Sample.secondLogin.1
           Sample.secondLogin.2 Sample.store 0%nat Sample.alice);
    reflexivity.
Defined.

Lemma changePassword_success_witness :
  let body := ChangePasswordBody.mk (Some "Secret1!") (Some "Abcdefgh1!") in
  let alice' := UserDoc.set_password (Some "Abcdefgh1!") Sample.alice in
  exists w',
    changePassword ObjectId Sample.samePassword passwordPolicy "u1" body
                   Sample.store
    = (Sent (Json 200 (mkEnvelope false [] EmptyData
                         "Password changed successfully" 200)), w')
    /\ users w' = [alice']
    /\ userById "u1" (users w') = Some (0%nat, alice')
    /\ UserDoc.password alice' = Some "Abcdefgh1!"
    /\ tokens w' = tokens Sample.store.
Proof.
  intros body alice'.
  apply (changePassword_success ObjectId Sample.samePassword passwordPolicy
           "u1" body Sample.store 0%nat Sample.alice); reflexivity.
Defined.

Lemma deleteAddress_twice_witness :
  let store' := (deleteAddress "a1" Cases.addresses).2 in
  NoDup (AddressDoc._id <$> Cases.addresses)
  /\ (deleteAddress "a1" Cases.addresses).1
     = AddressJson 200 false "Address deleted successfully"
                   (OneAddress Cases.home)
  /\ deleteAddress "a1" store'
     = (AddressNext (mkError "Address not found" 404 []), [Cases.office]).
Proof.
  intros store'.
  assert (Hnodup : NoDup (AddressDoc._id <$> Cases.addresses)).
  { cbn. apply NoDup_cons. split; [|apply NoDup_singleton].
    rewrite list_elem_of_singleton. discriminate. }
  split; [exact Hnodup|].
  apply (deleteAddress_twice "a1" Cases.addresses 0%nat Cases.home Hnodup).
  reflexivity.
Defined.

Lemma createAddress_then_listed_witness :
  let env := mkEnv 5000 "a3" "r" in
  let address :=
    AddressDoc.mk "a3" "u1" (Some "3 Hill Rd") (Some "Ibadan") (Some "OY")
                  (Some "200001") (Some "NG") in
  let store' :=
    (createAddress Cases.anyAddress env "u1" Cases.newAddress
                   Cases.addresses).2 in
  (createAddress Cases.anyAddress env "u1" Cases.newAddress Cases.addresses).1
  = AddressJson 201 false "Address created successfully" (OneAddress address)
  /\ (getUserAddresses "u1" store').1
     = AddressJson 200 false "Addresses fetched successfully"
         (AddressList [Cases.home; address])
  /\ forall other, other <> "u1" ->
       (getUserAddresses other store').1
       = (getUserAddresses other Cases.addresses).1.
Proof.
  intros env address store'.
  apply (createAddress_then_listed Cases.anyAddress env "u1" Cases.newAddress
           Cases.addresses).
  reflexivity.
Defined.

Lemma updateAddress_in_place_witness :
  let office' :=
    AddressDoc.mk "a2" "u2" (Some "2 Side St") (Some "Kano") (Some "FC")
                  (Some "900001") (Some "NG") in
  let store' :=
    (updateAddress Cases.anyUpdate "a2" Cases.moveCity Cases.addresses).2 in
  (updateAddress Cases.anyUpdate "a2" Cases.moveCity Cases.addresses).1
  = AddressJson 200 false "Address updated successfully" (OneAddress office')
  /\ addressById "a2" store' = Some (1%nat, office')
  /\ length store' = 2%nat
  /\ forall j, j <> 1%nat -> store' !! j = Cases.addresses !! j.
Proof.
  intros office' store'.
  apply (updateAddress_in_place Cases.anyUpdate "a2" Cases.moveCity
           Cases.addresses 1%nat Cases.office); reflexivity.
Defined.

Lemma login_email_case_insensitive_witness :
  let env := mkEnv 1000 "t1" "one" in
  let upper := LoginBody.mk (Some "A@B.com") (Some "Secret1!") in
  let lower := LoginBody.mk (Some "a@b.com") (Some "Secret1!") in
  sameEmail (LoginBody.email upper) (LoginBody.email lower)
  /\ login ObjectId Sample.mapUser Sample.checkCredentials env upper
           Sample.store
     = login ObjectId Sample.mapUser Sample.checkCredentials env lower
             Sample.store.
Proof.
  intros env upper lower. split; [reflexivity|].
  apply (login_email_case_insensitive ObjectId Sample.mapUser
           Sample.checkCredentials env upper lower Sample.store);
    reflexivity.
Defined.

